(** * SaturnSwap connector of dexter: datum codec, swap arithmetic and order payloads

  A shallow embedding of [src/dex/saturnswap.ts], of the SaturnSwap datum
  definitions and of the datum decoders, with the properties the
  specification states about them.

  [saturnswap.ts] exists in two revisions.  The first one prices swaps with
  the constant-product formulas (module [Amm]); the second one declares
  SaturnSwap a limit-order exchange, replaces the pricing methods by stubs
  and computes the value attached to an order itself (module [Clob]).  Both
  are embedded; each statement names the revision it is about. *)

From Stdlib Require Import ZArith Lia Floats QArith Qfield.
From stdpp Require Import base option list strings pretty gmap.

Local Open Scope Z_scope.

(** ** The part of the JavaScript runtime the code relies on *)

Module Js.

(** What a call can end with besides a value: an exception of the runtime,
    an [Error] built by the code, a promise rejected with a string, or one of
    the failures of the datum codec. *)
Inductive Failure : Type :=
| RangeError (msg : string)
| TypeError (msg : string)
| SyntaxError (msg : string)
| Error (msg : string)
| RejectedWith (reason : string)
| MissingParameter (key : string)
| SchemaMismatch
| MalformedWire.

Inductive Result (A : Type) : Type :=
| Ok (a : A)
| Err (e : Failure).
Arguments Ok {A} a.
Arguments Err {A} e.

Definition bind {A B : Type} (r : Result A) (k : A -> Result B) : Result B :=
  match r with
  | Ok a => k a
  | Err e => Err e
  end.

#[export] Instance Result_ret : MRet Result := @Ok.
#[export] Instance Result_bind : MBind Result := fun A B k r => bind r k.

(** [a / b] on [bigint]: the quotient truncated towards zero; a zero divisor
    throws. *)
Definition bigint_div (a b : Z) : Result Z :=
  if b =? 0 then Err (RangeError "Division by zero") else Ok (Z.quot a b).

(** [Number(z)] for a [bigint]: the nearest binary64 value, ties to even. *)
Definition Number_of_bigint (z : Z) : float :=
  SF2Prim (binary_normalize 53 1024 z 0 false).

(** The exact integer [floor (x + 1/2)] of a finite binary64 value. *)
Definition round_half_up (s : bool) (m : positive) (e : Z) : Z :=
  let n := if s then Z.neg m else Z.pos m in
  if 0 <=? e then n * 2 ^ e
  else (2 * n + 2 ^ (- e)) / 2 ^ (- e + 1).

(** [Math.round]: the nearest integer, halves rounded towards plus infinity;
    zeros, infinities and NaN are returned as they are. *)
Definition Math_round (x : float) : float :=
  match Prim2SF x with
  | S754_finite s m e =>
      SF2Prim (binary_normalize 53 1024 (round_half_up s m e) 0 s)
  | _ => x
  end.

(** [BigInt(x)] for a [number]: the integer [x] denotes, [RangeError] when
    [x] is not an integer (a fraction, an infinity, NaN). *)
Definition BigInt_of_number (x : float) : Result Z :=
  match Prim2SF x with
  | S754_zero _ => Ok 0
  | S754_finite s m e =>
      let n := if s then Z.neg m else Z.pos m in
      if 0 <=? e then Ok (n * 2 ^ e)
      else if Z.pos m mod 2 ^ (- e) =? 0 then Ok (Z.quot n (2 ^ (- e)))
      else Err (RangeError "The number cannot be converted to a BigInt because it is not an integer")
  | _ => Err (RangeError "The number cannot be converted to a BigInt because it is not an integer")
  end.

End Js.

Export Js.

(** ** Types of [@app/types] and of the models

  The declarations are imported by the sources and not part of them; the
  records below carry the fields the sources read and write. *)

Module Types.

(** A value of a datum parameter table: a byte string (hex) or an integer. *)
Inductive Value : Type :=
| VBytes (b : string)
| VInt (z : Z).

#[export] Instance Value_eq_dec : EqDecision Value.
Proof. solve_decision. Defined.

(** [DatumParameters]: parameter key to value; a key that is absent reads as
    [undefined]. *)
Abbreviation DatumParameters := (gmap string Value).

(** JavaScript truthiness of a looked-up parameter. *)
Definition truthy (v : option Value) : bool :=
  match v with
  | None => false
  | Some (VBytes b) => negb (String.eqb b "")
  | Some (VInt z) => negb (z =? 0)
  end.

(** [new Asset(policyId, nameHex)]; the arguments are whatever the parameter
    table held, the asset name possibly [undefined]. *)
Record Asset : Type := mkAsset {
  policyId : Value;
  nameHex : option Value;
}.

(** [Token = Asset | 'lovelace']. *)
Inductive Token : Type :=
| lovelace
| TokenAsset (a : Asset).

(** [AssetBalance].  The declaration types the quantity as a [bigint]; the
    type of the quantity is a parameter here, because [buildSwapOrder] of the
    second revision stores there whatever [deposit.value + swapInAmount]
    evaluates to.  Everywhere else the quantity is a [bigint]. *)
Record AssetBalanceOf (Q : Type) : Type := mkAssetBalance {
  asset : Token;
  quantity : Q;
}.
Arguments mkAssetBalance {Q} asset quantity.
Arguments asset {Q} a.
Arguments quantity {Q} a.

Abbreviation AssetBalance := (AssetBalanceOf Z).

Record UTxO : Type := mkUTxO {
  txHash : string;
  address : string;
  datumHash : option string;
  outputIndex : Z;
  assetBalances : list AssetBalance;
}.

Record Script : Type := mkScript {
  script_type : string;
  script : string;
}.

Record SpendUTxO : Type := mkSpendUTxO {
  utxo : UTxO;
  redeemer : option string;
  validator : option Script;
  signer : option string;
}.

Inductive AddressType : Type := Contract | Base | Enterprise.

(** [PayToAddress], over the type of the quantities of its asset balances. *)
Record PayToAddressOf (Q : Type) : Type := mkPayToAddress {
  pay_address : string;
  addressType : AddressType;
  pay_assetBalances : list (AssetBalanceOf Q);
  spendUtxos : list SpendUTxO;
  datum : option string;
  isInlineDatum : bool;
}.
Arguments mkPayToAddress {Q} pay_address addressType pay_assetBalances spendUtxos datum
  isInlineDatum.
Arguments pay_address {Q} p.
Arguments addressType {Q} p.
Arguments pay_assetBalances {Q} p.
Arguments spendUtxos {Q} p.
Arguments datum {Q} p.
Arguments isInlineDatum {Q} p.

Abbreviation PayToAddress := (PayToAddressOf Z).

Record SwapFee : Type := mkSwapFee {
  fee_id : string;
  title : string;
  description : string;
  value : Z;
  isReturned : bool;
}.

(** [LiquidityPool]: the two assets with their reserves and the fee, a
    percentage held as a [number]. *)
Record LiquidityPool : Type := mkLiquidityPool {
  dex : string;
  assetA : Token;
  assetB : Token;
  reserveA : Z;
  reserveB : Z;
  pool_address : string;
  marketOrderAddress : string;
  limitOrderAddress : string;
  identifier : string;
  poolFeePercent : float;
}.

End Types.

Export Types.

(** ** The datum codec

    [DefinitionBuilder] of [@app/definition-builder] is imported by the
    sources and not part of them, so the codec follows sections 3, 4.1 and
    4.2 of the specification.  The pool definitions of both revisions and the
    order definition of the second revision are schemas of this kind.  The
    order definition of the first revision ([definitions/saturnswap/order.ts])
    is not: it holds a constructor whose tag is the parameter [Action], which
    the schema of the specification has no node for, and it is not
    embedded. *)

Module DatumCodec.

(** Modelled from the spec: the schema of a datum ([DefinitionConstr] and
    [DefinitionField] of [@app/types], absent from the sources): a
    constructor with a numeric tag and positionally ordered children; a leaf
    that names the parameter key of a byte string or of an integer; or an
    optional field, "a Constructor with two legal variants", the tag [none]
    with zero children and the tag [some] with exactly one child, the inner
    schema, both tags fixed by the schema. *)
#[warnings="-register-all"]
Inductive SchemaNode : Type :=
| Constructor (tag : N) (fields : list SchemaNode)
| BytesField (key : string)
| IntField (key : string)
| OptionalField (none some : N) (inner : SchemaNode).

(** Modelled from the spec: the encoded datum, a tree that mirrors the schema
    after substitution; a constructor carries a concrete tag and concrete
    children, a leaf a concrete byte string or integer. *)
#[warnings="-register-all"]
Inductive EncodedDatum : Type :=
| DConstr (tag : N) (children : list EncodedDatum)
| DBytes (b : string)
| DInt (z : Z).

Definition leaf (v : Value) : EncodedDatum :=
  match v with
  | VBytes b => DBytes b
  | VInt z => DInt z
  end.

(** Left-to-right traversal that stops at the first failure. *)
Definition mapR {A B : Type} (f : A -> Result B) : list A -> Result (list B) :=
  fix go (l : list A) : Result (list B) :=
    match l with
    | [] => Ok []
    | a :: l' => b ← f a; bs ← go l'; mret (b :: bs)
    end.

(** Lock-step traversal of two lists threading an accumulator; lists of
    different lengths are a schema mismatch. *)
Definition foldR2 {A B S : Type} (f : A -> B -> S -> Result S)
    : list A -> list B -> S -> Result S :=
  fix go (la : list A) (lb : list B) (acc : S) : Result S :=
    match la, lb with
    | [], [] => Ok acc
    | a :: la', b :: lb' => acc' ← f a b acc; go la' lb' acc'
    | _, _ => Err SchemaMismatch
    end.

(** The two kinds of leaf and of value. *)
Inductive Kind : Type := KBytes | KInt.

Definition kind_of (v : Value) : Kind :=
  match v with
  | VBytes _ => KBytes
  | VInt _ => KInt
  end.

Definition kind_eqb (a b : Kind) : bool :=
  match a, b with
  | KBytes, KBytes | KInt, KInt => true
  | _, _ => false
  end.

(** The leaves of a schema, in order: key and kind.  The leaves of an
    optional field are those of its inner schema. *)
Fixpoint leaves (schema : SchemaNode) : list (string * Kind) :=
  match schema with
  | Constructor _ fields => flat_map leaves fields
  | BytesField key => [(key, KBytes)]
  | IntField key => [(key, KInt)]
  | OptionalField _ _ inner => leaves inner
  end.

Definition keys (schema : SchemaNode) : list string := (leaves schema).*1.

(** A key is present in a table. *)
Definition holds (params : DatumParameters) (key : string) : bool :=
  match params !! key with
  | Some _ => true
  | None => false
  end.

(** Modelled from the spec: [push] ([pushParameters] of the absent
    [DefinitionBuilder]) walks the schema; a constructor keeps its tag and
    recurses positionally into its children, a leaf looks its key up in the
    parameters and fails with [MissingParameter] when it is absent and the
    field is not optional.  An optional field whose key is absent becomes
    the [none] variant with no children; when the key is present it becomes
    [some] around the inner schema pushed in turn.  The spec speaks of the
    key of the field; where the inner schema has several leaves, the field
    is absent when the table holds none of their keys. *)
Fixpoint push (schema : SchemaNode) (params : DatumParameters) : Result EncodedDatum :=
  match schema with
  | Constructor tag fields =>
      children ← mapR (fun field => push field params) fields;
      mret (DConstr tag children)
  | BytesField key | IntField key =>
      match params !! key with
      | Some v => Ok (leaf v)
      | None => Err (MissingParameter key)
      end
  | OptionalField none some inner =>
      if existsb (holds params) (keys inner)
      then child ← push inner params; mret (DConstr some [child])
      else Ok (DConstr none [])
  end.

(** Modelled from the spec: the walk of [pull] ([pullParameters] of the absent
    [DefinitionBuilder]) over schema and datum in lock-step, recording into
    the table found so far; a constructor whose tag or child count differs
    from the schema's and a leaf of the wrong kind fail with
    [SchemaMismatch], a leaf of the right kind is recorded under the key the
    schema declares.  At an optional field the datum is the [none] tag with
    no child, which records nothing, or the [some] tag with one child, which
    is walked against the inner schema; anything else is a
    [SchemaMismatch]. *)
Fixpoint pull_into (schema : SchemaNode) (datum : EncodedDatum)
    (found : DatumParameters) : Result DatumParameters :=
  match schema, datum with
  | Constructor tag fields, DConstr tag' children =>
      if negb (tag =? tag')%N || negb (length fields =? length children)%nat
      then Err SchemaMismatch
      else foldR2 pull_into fields children found
  | BytesField key, DBytes b => Ok (<[key := VBytes b]> found)
  | IntField key, DInt z => Ok (<[key := VInt z]> found)
  | OptionalField none some inner, DConstr tag' [] =>
      if (tag' =? none)%N then Ok found else Err SchemaMismatch
  | OptionalField none some inner, DConstr tag' [child] =>
      if (tag' =? some)%N then pull_into inner child found else Err SchemaMismatch
  | _, _ => Err SchemaMismatch
  end.

(** Modelled from the spec: [pull] of a datum against a schema, starting from
    the empty table. *)
Definition pull (schema : SchemaNode) (datum : EncodedDatum) : Result DatumParameters :=
  pull_into schema datum ∅.

(** A leaf is served by a table that holds a value of its kind under its
    key. *)
Definition served (params : DatumParameters) (l : string * Kind) : bool :=
  match params !! l.1 with
  | Some v => kind_eqb (kind_of v) l.2
  | None => false
  end.

(** A table fits a schema when every leaf outside an optional field finds a
    value of its kind, and every optional field is either absent from the
    table or fitted by it in turn. *)
Fixpoint fits (params : DatumParameters) (schema : SchemaNode) : bool :=
  match schema with
  | Constructor _ fields => forallb (fits params) fields
  | BytesField key => served params (key, KBytes)
  | IntField key => served params (key, KInt)
  | OptionalField _ _ inner =>
      negb (existsb (holds params) (keys inner)) || fits params inner
  end.

(** A parameter table is valid for a schema when each of its keys is a leaf
    key of the schema and it fits the schema.  For a schema without optional
    fields its keys are then exactly the leaf keys. *)
Definition valid (schema : SchemaNode) (params : DatumParameters) : bool :=
  bool_decide (dom params ⊆ list_to_set (keys schema))
  && fits params schema.

(** Induction over a schema with the hypothesis for every child of a
    constructor. *)
Fixpoint SchemaNode_rect_fields (P : SchemaNode -> Prop)
    (Hconstr : forall tag fields, Forall P fields -> P (Constructor tag fields))
    (Hbytes : forall key, P (BytesField key))
    (Hint : forall key, P (IntField key))
    (Hopt : forall none some inner, P inner -> P (OptionalField none some inner))
    (schema : SchemaNode) : P schema :=
  match schema with
  | Constructor tag fields =>
      Hconstr tag fields
        ((fix all (fs : list SchemaNode) : Forall P fs :=
            match fs with
            | [] => List.Forall_nil P
            | f :: fs' =>
                @List.Forall_cons _ P f fs'
                  (SchemaNode_rect_fields P Hconstr Hbytes Hint Hopt f) (all fs')
            end) fields)
  | BytesField key => Hbytes key
  | IntField key => Hint key
  | OptionalField none some inner =>
      Hopt none some inner (SchemaNode_rect_fields P Hconstr Hbytes Hint Hopt inner)
  end.

(** What [pull] has recorded after the leaves [ls] of a datum pushed from
    [params]: each leaf key with the value [params] holds for it. *)
Definition recorded (params found : DatumParameters) (ls : list (string * Kind))
    : DatumParameters :=
  foldl (fun acc l =>
           match params !! l.1 with
           | Some v => <[l.1 := v]> acc
           | None => acc
           end) found ls.

End DatumCodec.

Export DatumCodec.

(** ** Parameter keys and datum definitions of SaturnSwap *)

(** The members of the enumeration [DatumParameterKey] of [@app/constants]
    that the sources use, each standing for itself. *)
Module DatumParameterKey.

Definition SenderPubKeyHash : string := "SenderPubKeyHash".
Definition SenderStakingKeyHash : string := "SenderStakingKeyHash".
Definition TokenPolicyId : string := "TokenPolicyId".
Definition TokenAssetName : string := "TokenAssetName".
Definition SwapInAmount : string := "SwapInAmount".
Definition SwapInTokenPolicyId : string := "SwapInTokenPolicyId".
Definition SwapInTokenAssetName : string := "SwapInTokenAssetName".
Definition SwapOutTokenPolicyId : string := "SwapOutTokenPolicyId".
Definition SwapOutTokenAssetName : string := "SwapOutTokenAssetName".
Definition MinReceive : string := "MinReceive".
Definition Expiration : string := "Expiration".
Definition DepositFee : string := "DepositFee".
Definition BatcherFee : string := "BatcherFee".
Definition Unknown : string := "Unknown".
Definition PoolIdentifier : string := "PoolIdentifier".
Definition PoolAssetAPolicyId : string := "PoolAssetAPolicyId".
Definition PoolAssetAAssetName : string := "PoolAssetAAssetName".
Definition PoolAssetBPolicyId : string := "PoolAssetBPolicyId".
Definition PoolAssetBAssetName : string := "PoolAssetBAssetName".
Definition ReserveA : string := "ReserveA".
Definition ReserveB : string := "ReserveB".
Definition TotalLpTokens : string := "TotalLpTokens".
Definition LpFee : string := "LpFee".
Definition LpFeeNumerator : string := "LpFeeNumerator".
Definition LpFeeDenominator : string := "LpFeeDenominator".

End DatumParameterKey.

Module Definitions.

(** [definitions/saturnswap/pool.ts], second revision: the [ControlDatum]
    variant; [LpFee] keys both the minimum price of token one and the
    activity flag. *)
Definition poolDefinition : SchemaNode :=
  Constructor 2 [
    BytesField DatumParameterKey.PoolAssetAPolicyId;
    BytesField DatumParameterKey.PoolAssetAAssetName;
    IntField DatumParameterKey.LpFee;
    IntField DatumParameterKey.LpFeeNumerator;
    IntField DatumParameterKey.ReserveA;
    BytesField DatumParameterKey.PoolAssetBPolicyId;
    BytesField DatumParameterKey.PoolAssetBAssetName;
    IntField DatumParameterKey.TotalLpTokens;
    IntField DatumParameterKey.LpFeeDenominator;
    IntField DatumParameterKey.ReserveB;
    IntField DatumParameterKey.LpFee
  ].

(** The order definition of the second revision ([SwapDatum]); the expiry is
    the constructor [0] without fields. *)
Definition orderDefinition : SchemaNode :=
  Constructor 0 [
    Constructor 0 [
      Constructor 0 [
        BytesField DatumParameterKey.SenderPubKeyHash
      ];
      Constructor 0 [
        Constructor 0 [
          BytesField DatumParameterKey.SenderStakingKeyHash
        ]
      ]
    ];
    BytesField DatumParameterKey.TokenPolicyId;
    BytesField DatumParameterKey.TokenAssetName;
    IntField DatumParameterKey.SwapInAmount;
    BytesField DatumParameterKey.SwapOutTokenPolicyId;
    BytesField DatumParameterKey.SwapOutTokenAssetName;
    IntField DatumParameterKey.MinReceive;
    Constructor 0 [];
    Constructor 0 [
      BytesField DatumParameterKey.PoolIdentifier;
      IntField DatumParameterKey.BatcherFee
    ]
  ].

(** [definitions/saturnswap/pool.ts], first revision. *)
Definition poolDefinition_v1 : SchemaNode :=
  Constructor 0 [
    BytesField DatumParameterKey.PoolIdentifier;
    Constructor 0 [
      BytesField DatumParameterKey.PoolAssetAPolicyId;
      BytesField DatumParameterKey.PoolAssetAAssetName
    ];
    Constructor 0 [
      BytesField DatumParameterKey.PoolAssetBPolicyId;
      BytesField DatumParameterKey.PoolAssetBAssetName
    ];
    IntField DatumParameterKey.ReserveA;
    IntField DatumParameterKey.ReserveB;
    IntField DatumParameterKey.TotalLpTokens;
    IntField DatumParameterKey.LpFeeNumerator;
    IntField DatumParameterKey.LpFeeDenominator
  ].

End Definitions.

Export Definitions.

(** ** [definitions/saturnswap/decode]: the datum decoders *)

Module Decode.

(** [Data] of lucid-cardano: an integer, a byte string (hex), a list, a map
    or a constructor application. *)
#[warnings="-register-all"]
Inductive Data : Type :=
| DataInt (z : Z)
| DataBytes (hex : string)
| DataList (items : list Data)
| DataMap (entries : list (Data * Data))
| Constr (index : Z) (fields : list Data).

(** [datum.index] and [datum.fields]: [undefined] on anything but a
    constructor application. *)
Definition index_of (datum : Data) : option Z :=
  match datum with
  | Constr index _ => Some index
  | _ => None
  end.

Definition fields_of (datum : Data) : option (list Data) :=
  match datum with
  | Constr _ fields => Some fields
  | _ => None
  end.

Record TokenAmount : Type := mkTokenAmount {
  token_policyId : Data;
  token_assetName : Data;
  amount : Z;
}.

Record SwapDatum : Type := mkSwapDatum {
  owner : Data;
  sellToken : TokenAmount;
  buyToken : TokenAmount;
  expiry : option Z;
  outputReference : Data;
}.

Record TokenControl : Type := mkTokenControl {
  control_policyId : Data;
  control_assetName : Data;
  minPrice : Z;
  maxPrice : Z;
  precision : Z;
}.

Record ControlDatum : Type := mkControlDatum {
  tokenOne : TokenControl;
  tokenTwo : TokenControl;
  isActive : bool;
}.

(** What a decoder hands back: the record or [null], and what it wrote with
    [console.error]. *)
Record Decoded (A : Type) : Type := mkDecoded {
  returned : option A;
  logged : list (string * Failure);
}.
Arguments mkDecoded {A} returned logged.
Arguments returned {A} d.
Arguments logged {A} d.

Section Decoders.

(** [Data.from] of lucid-cardano: the datum a CBOR hex string denotes; it
    throws on bytes that denote none. *)
Variable Data_from : string -> Result Data.

(** [BigInt(x)] on a datum that is not an integer already: the coercion of the
    runtime through the string form of [x] (it throws on most values). *)
Variable BigInt_coerce : Data -> Result Z.

Definition BigInt_of_data (x : Data) : Result Z :=
  match x with
  | DataInt z => Ok z
  | _ => BigInt_coerce x
  end.

(** The body of the [try] block of [decodeSwapDatum]. *)
Definition decodeSwapDatum_try (datumCbor : string) : Result SwapDatum :=
  datum ← Data_from datumCbor;
  if negb (bool_decide (index_of datum = Some 0))
  then Err (Error "Invalid SwapDatum constructor index")
  else
    match fields_of datum with
    | Some [owner; policy_id_sell; asset_name_sell; field3;
            policy_id_buy; asset_name_buy; field6;
            valid_before_time; output_reference] =>
        amount_sell ← BigInt_of_data field3;
        amount_buy ← BigInt_of_data field6;
        expiry ←
          (match valid_before_time with
           | Constr 0 (timestamp :: _) => t ← BigInt_of_data timestamp; mret (Some t)
           | Constr 0 [] => Err (TypeError "Cannot convert undefined to a BigInt")
           | _ => Ok None
           end);
        mret {| owner := owner;
                sellToken := mkTokenAmount policy_id_sell asset_name_sell amount_sell;
                buyToken := mkTokenAmount policy_id_buy asset_name_buy amount_buy;
                expiry := expiry;
                outputReference := output_reference |}
    | _ => Err (Error "Invalid SwapDatum fields")
    end.

(** [decodeSwapDatum]: whatever the body throws is caught, logged and turned
    into [null]. *)
Definition decodeSwapDatum (datumCbor : string) : Decoded SwapDatum :=
  match decodeSwapDatum_try datumCbor with
  | Ok swapDatum => mkDecoded (Some swapDatum) []
  | Err error => mkDecoded None [("Failed to decode SwapDatum:", error)]
  end.

(** The body of the [try] block of [decodeControlDatum]; a constructor index
    other than [2] returns [null] at once. *)
Definition decodeControlDatum_try (datumCbor : string) : Result (option ControlDatum) :=
  datum ← Data_from datumCbor;
  if negb (bool_decide (index_of datum = Some 2))
  then Ok None
  else
    match fields_of datum with
    | Some [field0; field1; field2; field3; field4;
            field5; field6; field7; field8; field9; field10] =>
        minOne ← BigInt_of_data field2;
        maxOne ← BigInt_of_data field3;
        precisionOne ← BigInt_of_data field4;
        minTwo ← BigInt_of_data field7;
        maxTwo ← BigInt_of_data field8;
        precisionTwo ← BigInt_of_data field9;
        mret (Some {| tokenOne := mkTokenControl field0 field1 minOne maxOne precisionOne;
                      tokenTwo := mkTokenControl field5 field6 minTwo maxTwo precisionTwo;
                      isActive := bool_decide (index_of field10 = Some 1) |})
    | _ => Err (Error "Invalid ControlDatum fields")
    end.

Definition decodeControlDatum (datumCbor : string) : Decoded ControlDatum :=
  match decodeControlDatum_try datumCbor with
  | Ok controlDatum => mkDecoded controlDatum []
  | Err error => mkDecoded None [("Failed to decode ControlDatum:", error)]
  end.

(** [isSwapDatum] and [isControlDatum]. *)
Definition isSwapDatum (datumCbor : string) : bool :=
  match Data_from datumCbor with
  | Ok datum =>
      bool_decide (index_of datum = Some 0)
      && bool_decide (length <$> fields_of datum = Some 9%nat)
  | Err _ => false
  end.

Definition isControlDatum (datumCbor : string) : bool :=
  match Data_from datumCbor with
  | Ok datum =>
      bool_decide (index_of datum = Some 2)
      && bool_decide (length <$> fields_of datum = Some 11%nat)
  | Err _ => false
  end.

End Decoders.

End Decode.

(** ** [saturnswap.ts]: what the two revisions share *)

Module SaturnSwap.

(** The on-chain constants of an instance of the class. *)
Record Instance : Type := mkInstance {
  poolAddress : string;
  orderAddress : string;
  poolValidityAsset : string;
  cancelDatum : string;
  orderScript : Script;
}.

(** [swapOrderFees]; the three arguments are optional and unused. *)
Definition swapOrderFees (liquidityPool : option LiquidityPool)
    (swapInToken : option Token) (swapInAmount : option Z) : list SwapFee :=
  [ {| fee_id := "deposit";
       title := "Deposit";
       description := "Minimum ADA required for the order UTxO. Returned when order is executed or cancelled.";
       value := 2000000;
       isReturned := true |} ].

(** [fees.find((fee) => fee.id === 'deposit')]. *)
Definition find_deposit (fees : list SwapFee) : option SwapFee :=
  List.find (fun fee => bool_decide (fee_id fee = "deposit")) fees.

(** [buildCancelSwapOrder], the same text in both revisions. *)
Definition buildCancelSwapOrder (this : Instance) (txOutputs : list UTxO)
    (returnAddress : string) : Result (list PayToAddress) :=
  match List.find (fun utxo => bool_decide (address utxo = orderAddress this)) txOutputs with
  | None => Err (RejectedWith "Unable to find Saturn order UTxO for cancellation.")
  | Some relevantUtxo =>
      Ok [ {| pay_address := returnAddress;
              addressType := Base;
              pay_assetBalances := assetBalances relevantUtxo;
              spendUtxos := [ {| utxo := relevantUtxo;
                                 redeemer := Some (cancelDatum this);
                                 validator := Some (orderScript this);
                                 signer := Some returnAddress |} ];
              datum := None;
              isInlineDatum := false |} ]
  end.

End SaturnSwap.

Export SaturnSwap.

(** ** [saturnswap.ts], first revision: constant-product pricing *)

Module Amm.

Definition this : Instance :=
  {| poolAddress := "addr1_SATURN_POOL_ADDRESS";
     orderAddress := "addr1_SATURN_ORDER_ADDRESS";
     poolValidityAsset := "SATURN_POOL_VALIDITY_ASSET";
     cancelDatum := "d87a80";
     orderScript := {| script_type := "PlutusV2"; script := "SATURN_ORDER_SCRIPT_CBOR" |} |}.

Section SwapMath.

(** [correspondingReserves] of [@app/utils]: the reserve of the given token
    first, the reserve of the other token second. *)
Variable correspondingReserves : LiquidityPool -> Token -> Z * Z.

Definition poolFeeMultiplier : Z := 10000.

(** [BigInt(Math.round((liquidityPool.poolFeePercent / 100) * Number(poolFeeMultiplier)))]:
    the pool fee in basis points. *)
Definition poolFeeBps (liquidityPool : LiquidityPool) : Result Z :=
  BigInt_of_number
    (Math_round
       (PrimFloat.mul (PrimFloat.div (poolFeePercent liquidityPool) 100%float)
                      (Number_of_bigint poolFeeMultiplier))).

Definition poolFeeModifier (liquidityPool : LiquidityPool) : Result Z :=
  feeBps ← poolFeeBps liquidityPool;
  mret (poolFeeMultiplier - feeBps).

Definition estimatedGive (liquidityPool : LiquidityPool) (swapOutToken : Token)
    (swapOutAmount : Z) : Result Z :=
  poolFeeModifier ← poolFeeModifier liquidityPool;
  let '(reserveOut, reserveIn) := correspondingReserves liquidityPool swapOutToken in
  let swapInNumerator := swapOutAmount * reserveIn * poolFeeMultiplier in
  let swapInDenominator := (reserveOut - swapOutAmount) * poolFeeModifier in
  q ← bigint_div swapInNumerator swapInDenominator;
  mret (q + 1).

Definition estimatedReceive (liquidityPool : LiquidityPool) (swapInToken : Token)
    (swapInAmount : Z) : Result Z :=
  poolFeeModifier ← poolFeeModifier liquidityPool;
  let '(reserveIn, reserveOut) := correspondingReserves liquidityPool swapInToken in
  let swapOutNumerator := swapInAmount * reserveOut * poolFeeModifier in
  let swapOutDenominator := swapInAmount * poolFeeModifier + reserveIn * poolFeeMultiplier in
  bigint_div swapOutNumerator swapOutDenominator.

Definition priceImpactPercent (liquidityPool : LiquidityPool) (swapInToken : Token)
    (swapInAmount : Z) : Result float :=
  poolFeeModifier ← poolFeeModifier liquidityPool;
  let '(reserveIn, reserveOut) := correspondingReserves liquidityPool swapInToken in
  let swapOutNumerator := swapInAmount * poolFeeModifier * reserveOut in
  let swapOutDenominator := swapInAmount * poolFeeModifier + reserveIn * poolFeeMultiplier in
  let priceImpactNumerator :=
    (reserveOut * swapInAmount * swapOutDenominator * poolFeeModifier)
    - (swapOutNumerator * reserveIn * poolFeeMultiplier) in
  let priceImpactDenominator :=
    reserveOut * swapInAmount * swapOutDenominator * poolFeeMultiplier in
  mret (PrimFloat.div (Number_of_bigint (priceImpactNumerator * 100))
                      (Number_of_bigint priceImpactDenominator)).

End SwapMath.

Section OrderPlacement.

(** The CBOR of the order definition of this revision
    ([definitions/saturnswap/order.ts]) with the parameters pushed:
    [loadDefinition(order)], [pushParameters], [getCbor] of the absent
    [DefinitionBuilder]. *)
Variable orderDatumCbor : DatumParameters -> Result string.

(** [buildSwapOrderPayment] of the absent base class [BaseDex]. *)
Variable buildSwapOrderPayment : DatumParameters -> PayToAddress -> Result PayToAddress.

(** [buildSwapOrder] from the fee list that [this.swapOrderFees()] returned. *)
Definition buildSwapOrder_with (fees : list SwapFee) (liquidityPool : LiquidityPool)
    (swapParameters : DatumParameters) (spendUtxos : list SpendUTxO)
    : Result (list PayToAddress) :=
  match find_deposit fees with
  | None => Err (RejectedWith "Deposit fee not configured.")
  | Some deposit =>
      let swapParameters :=
        <[DatumParameterKey.DepositFee := VInt (value deposit)]> swapParameters in
      cbor ← orderDatumCbor swapParameters;
      payment ← buildSwapOrderPayment swapParameters
        {| pay_address := orderAddress this;
           addressType := Contract;
           pay_assetBalances := [ {| asset := lovelace; quantity := value deposit |} ];
           spendUtxos := spendUtxos;
           datum := Some cbor;
           isInlineDatum := true |};
      mret [payment]
  end.

Definition buildSwapOrder (liquidityPool : LiquidityPool)
    (swapParameters : DatumParameters) (spendUtxos : list SpendUTxO)
    : Result (list PayToAddress) :=
  buildSwapOrder_with (swapOrderFees None None None) liquidityPool swapParameters spendUtxos.

End OrderPlacement.

End Amm.

(** ** [saturnswap.ts], second revision: limit-order exchange

    The pricing methods are stubs here: the two estimates throw and the price
    impact is the constant [0]. *)

Module Clob.

Definition POOL_SCRIPT_HASH : string := "9ee45349eb188aaf652d9ddd3be184efb600e859d0d961ea756df357".
Definition ORDER_SCRIPT_HASH : string := "3cf991c2d5b47006c2106c105332456af4d88321301f292f434ad01b".
Definition LIQUIDITY_ADDRESS : string :=
  "addr1qy3v66uc8shcm3c4kqkjhjqe76dh3y0cvq3awa6lnjvj52nrlasf2cg9vah02a70g2n93p202prq9hgzxph7zuunjgrqjev82a".
Definition MAIN_ADDRESS : string :=
  "addr1q80ukhmvgtm498e3h6pwpe52whpdh98yy4qfwup5zqg7lqz75jq4yvpskgayj55xegdp30g5rfynax66r8vgn9fldndskl33sd".

Definition this : Instance :=
  {| poolAddress := LIQUIDITY_ADDRESS;
     orderAddress := MAIN_ADDRESS;
     poolValidityAsset := "";
     cancelDatum := "d87a8100";
     orderScript := {| script_type := "PlutusV2"; script := ORDER_SCRIPT_HASH |} |}.

Definition estimatedGive (liquidityPool : LiquidityPool) (swapOutToken : Token)
    (swapOutAmount : Z) : Result Z :=
  Err (Error "SaturnSwap is a limit-order DEX. Use order book queries to determine swap amounts.").

Definition estimatedReceive (liquidityPool : LiquidityPool) (swapInToken : Token)
    (swapInAmount : Z) : Result Z :=
  Err (Error "SaturnSwap is a limit-order DEX. Use order book queries to determine swap amounts.").

Definition priceImpactPercent (liquidityPool : LiquidityPool) (swapInToken : Token)
    (swapInAmount : Z) : Result float :=
  Ok 0%float.

Section OrderPlacement.

(** [getCbor] of the absent [DefinitionBuilder]: the wire form (hex) of the
    datum built. *)
Variable getCbor : EncodedDatum -> string.

(** [deposit.value + swapInAmount] with the operand read from the parameter
    table.  The cast [as bigint] changes nothing at run time: a [bigint]
    adds up, a string is appended to the decimal digits of the left operand
    and the result is that string, [undefined] throws. *)
Definition bigint_plus (a : Z) (v : option Value) : Result Value :=
  match v with
  | Some (VInt z) => Ok (VInt (a + z))
  | Some (VBytes s) => Ok (VBytes (pretty a +:+ s))
  | None => Err (TypeError "Cannot mix BigInt and other types, use explicit conversions")
  end.

(** The parameters handed to the builder: the deposit fee and the empty
    output reference are set; [Expiration] keeps its value when that is
    truthy and is [undefined], that is absent, otherwise. *)
Definition swapDatumParameters (deposit : SwapFee) (swapParameters : DatumParameters)
    : DatumParameters :=
  let withFee :=
    <[DatumParameterKey.Unknown := VBytes ""]>
      (<[DatumParameterKey.DepositFee := VInt (value deposit)]> swapParameters) in
  if truthy (swapParameters !! DatumParameterKey.Expiration)
  then withFee
  else delete DatumParameterKey.Expiration withFee.

(** [buildSwapOrder] from the fee list that [this.swapOrderFees()] returned.
    The quantity attached is the value of [deposit.value + swapInAmount], a
    [bigint] or a string. *)
Definition buildSwapOrder_with (fees : list SwapFee) (liquidityPool : LiquidityPool)
    (swapParameters : DatumParameters) (spendUtxos : list SpendUTxO)
    : Result (list (PayToAddressOf Value)) :=
  match find_deposit fees with
  | None => Err (RejectedWith "Deposit fee not configured.")
  | Some deposit =>
      built ← push orderDefinition (swapDatumParameters deposit swapParameters);
      totalAmount ← bigint_plus (value deposit)
                      (swapParameters !! DatumParameterKey.SwapInAmount);
      mret [ {| pay_address := orderAddress this;
                addressType := Contract;
                pay_assetBalances :=
                  [ {| asset :=
                         match swapParameters !! DatumParameterKey.SwapInTokenPolicyId with
                         | Some policy =>
                             if truthy (Some policy)
                             then TokenAsset
                                    (mkAsset policy
                                       (swapParameters !! DatumParameterKey.SwapInTokenAssetName))
                             else lovelace
                         | None => lovelace
                         end;
                       quantity := totalAmount |} ];
                spendUtxos := spendUtxos;
                datum := Some (getCbor built);
                isInlineDatum := true |} ]
  end.

Definition buildSwapOrder (liquidityPool : LiquidityPool)
    (swapParameters : DatumParameters) (spendUtxos : list SpendUTxO)
    : Result (list (PayToAddressOf Value)) :=
  buildSwapOrder_with (swapOrderFees None None None) liquidityPool swapParameters spendUtxos.

End OrderPlacement.

End Clob.

(** ** Concrete pools for evaluating the definitions *)

Module Sample.

#[export] Instance Asset_eq_dec : EqDecision Asset.
Proof. solve_decision. Defined.

#[export] Instance Token_eq_dec : EqDecision Token.
Proof. solve_decision. Defined.

(** An instance of [correspondingReserves]: the reserve of the given token
    first when it is the pool's asset A, the reserve of asset B first
    otherwise. *)
Definition correspondingReserves (liquidityPool : LiquidityPool) (token : Token) : Z * Z :=
  if decide (token = assetA liquidityPool)
  then (reserveA liquidityPool, reserveB liquidityPool)
  else (reserveB liquidityPool, reserveA liquidityPool).

Definition tokenB : Token :=
  TokenAsset (mkAsset (VBytes "533bb94a8850ee3ccbe483106489399112b74c905342cb1792a797a0")
                      (Some (VBytes "494e4459"))).

(** A pool of 1 000 000 lovelace against 2 000 000 units of [tokenB] with the
    fee at 0.3 percent ([0x1.3333333333333p-2] is the [number] 0.3). *)
Definition pool : LiquidityPool :=
  {| dex := "SaturnSwap";
     assetA := lovelace;
     assetB := tokenB;
     reserveA := 1000000;
     reserveB := 2000000;
     pool_address := "addr1_SATURN_POOL_ADDRESS";
     marketOrderAddress := "addr1_SATURN_ORDER_ADDRESS";
     limitOrderAddress := "addr1_SATURN_ORDER_ADDRESS";
     identifier := "pool";
     poolFeePercent := 0x1.3333333333333p-2%float |}.

(** One parameter table for each datum definition. *)
Definition poolParameters : DatumParameters :=
  <[DatumParameterKey.PoolAssetAPolicyId := VBytes ""]>
  (<[DatumParameterKey.PoolAssetAAssetName := VBytes ""]>
  (<[DatumParameterKey.LpFee := VInt 1]>
  (<[DatumParameterKey.LpFeeNumerator := VInt 250000]>
  (<[DatumParameterKey.ReserveA := VInt 6]>
  (<[DatumParameterKey.PoolAssetBPolicyId :=
       VBytes "533bb94a8850ee3ccbe483106489399112b74c905342cb1792a797a0"]>
  (<[DatumParameterKey.PoolAssetBAssetName := VBytes "494e4459"]>
  (<[DatumParameterKey.TotalLpTokens := VInt 4]>
  (<[DatumParameterKey.LpFeeDenominator := VInt 9000000]>
  (<[DatumParameterKey.ReserveB := VInt 6]> ∅))))))))).

Definition orderParameters : DatumParameters :=
  <[DatumParameterKey.SenderPubKeyHash :=
      VBytes "1f6db6a8d6a2a0e4b0f1c5b3a0d7e9c4f2b1a3958e7d6c5b4a392817"]>
  (<[DatumParameterKey.SenderStakingKeyHash :=
       VBytes "9d8c7b6a5f4e3d2c1b0a99887766554433221100ffeeddccbbaa9988"]>
  (<[DatumParameterKey.TokenPolicyId := VBytes ""]>
  (<[DatumParameterKey.TokenAssetName := VBytes ""]>
  (<[DatumParameterKey.SwapInAmount := VInt 5000000]>
  (<[DatumParameterKey.SwapOutTokenPolicyId :=
       VBytes "533bb94a8850ee3ccbe483106489399112b74c905342cb1792a797a0"]>
  (<[DatumParameterKey.SwapOutTokenAssetName := VBytes "494e4459"]>
  (<[DatumParameterKey.MinReceive := VInt 9500000]>
  (<[DatumParameterKey.PoolIdentifier :=
       VBytes "7c1e3f5a9b2d4c6e8f0a1b3c5d7e9f1a2b4c6d8e0f1a3b5c7d9e1f3a5b7c9d1e"]>
  (<[DatumParameterKey.BatcherFee := VInt 0]> ∅))))))))).

(** The parameters of a sale of 5 000 000 units of [tokenB] for lovelace. *)
Definition tokenSaleParameters : DatumParameters :=
  <[DatumParameterKey.SwapInTokenPolicyId :=
      VBytes "533bb94a8850ee3ccbe483106489399112b74c905342cb1792a797a0"]>
  (<[DatumParameterKey.SwapInTokenAssetName := VBytes "494e4459"]>
  (<[DatumParameterKey.TokenPolicyId :=
       VBytes "533bb94a8850ee3ccbe483106489399112b74c905342cb1792a797a0"]>
  (<[DatumParameterKey.TokenAssetName := VBytes "494e4459"]>
  (<[DatumParameterKey.SwapOutTokenPolicyId := VBytes ""]>
  (<[DatumParameterKey.SwapOutTokenAssetName := VBytes ""]>
  (<[DatumParameterKey.MinReceive := VInt 2400000]> orderParameters)))))).

(** A stand-in for the wire form of a datum: the tree printed as text. *)
Fixpoint getCbor (datum : EncodedDatum) : string :=
  match datum with
  | DConstr tag children =>
      "constr " +:+ pretty tag +:+ " [" +:+ String.concat "; " (map getCbor children) +:+ "]"
  | DBytes b => "h'" +:+ b +:+ "'"
  | DInt z => pretty z
  end.

(** Transaction outputs: one at a wallet address, two at the order address of
    the second revision. *)
Definition walletOutput : UTxO :=
  {| txHash := "a1"; address := "addr1_wallet"; datumHash := None; outputIndex := 0;
     assetBalances := [ {| asset := lovelace; quantity := 1500000 |} ] |}.

Definition orderOutput : UTxO :=
  {| txHash := "a1"; address := Clob.MAIN_ADDRESS; datumHash := Some "d1"; outputIndex := 1;
     assetBalances := [ {| asset := lovelace; quantity := 7000000 |} ] |}.

Definition laterOrderOutput : UTxO :=
  {| txHash := "a1"; address := Clob.MAIN_ADDRESS; datumHash := Some "d2"; outputIndex := 2;
     assetBalances := [ {| asset := tokenB; quantity := 42 |} ] |}.

(** A reader of three CBOR strings, the empty applications of the
    constructors 0, 1 and 2; anything else is refused. *)
Definition Data_from (datumCbor : string) : Result Decode.Data :=
  if String.eqb datumCbor "d87980" then Ok (Decode.Constr 0 [])
  else if String.eqb datumCbor "d87a80" then Ok (Decode.Constr 1 [])
  else if String.eqb datumCbor "d87b80" then Ok (Decode.Constr 2 [])
  else Err (Error "Invalid CBOR").

Definition BigInt_coerce (x : Decode.Data) : Result Z :=
  Err (SyntaxError "Cannot convert to a BigInt").

End Sample.

(** ** A built datum as the decoders see it *)

Module Wire.

(** The [Data] that lucid-cardano reads back from the wire form of a datum:
    constructor applications, byte strings and integers map one to one. *)
Fixpoint to_data (datum : EncodedDatum) : Decode.Data :=
  match datum with
  | DConstr tag children => Decode.Constr (Z.of_N tag) (map to_data children)
  | DBytes b => Decode.DataBytes b
  | DInt z => Decode.DataInt z
  end.

End Wire.

(** ** [saturnswap.ts]: pools from the outputs at the pool address *)

Module Pools.

Section Listing.

(** [provider.utxos] of the absent data provider: the outputs at an address,
    or a rejection. *)
Variable provider_utxos : string -> Result (list UTxO).

(** [liquidityPoolFromUtxo] of the revision at hand; it never rejects. *)
Context {P : Type}.
Variable liquidityPoolFromUtxo : UTxO -> option P.

(** [liquidityPoolAddresses]: the pool address alone. *)
Definition liquidityPoolAddresses (this : Instance) : list string :=
  [poolAddress this].

(** The outputs of the inner loop of [liquidityPools]: the pools of the
    outputs that have one, in order. *)
Definition poolsOf (utxos : list UTxO) : list P :=
  omap liquidityPoolFromUtxo utxos.

(** [liquidityPools], the same text in both revisions: address by address,
    the pools of the outputs found there; a rejection of the provider ends
    the call. *)
Definition liquidityPools (this : Instance) : Result (list P) :=
  foldl (fun pools address =>
           pools ← pools;
           utxos ← provider_utxos address;
           mret (pools ++ poolsOf utxos))
        (Ok []) (liquidityPoolAddresses this).

End Listing.

End Pools.

(** ** [liquidityPoolFromUtxo], first revision *)

Module AmmPools.

Definition lpTokenPolicyId : string := "SATURN_LP_TOKEN_POLICY_ID".
Definition poolNftPolicyId : string := "SATURN_POOL_NFT_POLICY_ID".

(** What the method returns: the pool with the two properties it sets that
    the pool record above does not hold. *)
Record FoundPool : Type := mkFoundPool {
  liquidityPool : LiquidityPool;
  lpToken : Asset;
  totalLpTokens : Z;
}.

(** The predicate of the search for the pool NFT: an asset, not lovelace,
    under the pool NFT policy. *)
Definition isPoolNft (assetBalance : AssetBalance) : bool :=
  match asset assetBalance with
  | lovelace => false
  | TokenAsset a => bool_decide (policyId a = VBytes poolNftPolicyId)
  end.

(** The predicate of the filter for the relevant assets: lovelace, or an
    asset under neither the LP token policy nor the pool NFT policy. *)
Definition isRelevant (assetBalance : AssetBalance) : bool :=
  match asset assetBalance with
  | lovelace => true
  | TokenAsset a =>
      negb (bool_decide (policyId a = VBytes lpTokenPolicyId))
      && negb (bool_decide (policyId a = VBytes poolNftPolicyId))
  end.

Section FromUtxo.

(** [provider.datumValue] of the absent data provider. *)
Variable datumValue : string -> Result EncodedDatum.

(** [identifier()] of the absent class [Asset]. *)
Variable Asset_identifier : Asset -> string.

(** [BigInt(s)] for a string: the integer it spells, or a [SyntaxError]. *)
Variable BigInt_of_string : string -> Result Z.

(** [BigInt(parameters.TotalLpTokens || 0)]. *)
Definition totalLpTokens_of (parameters : DatumParameters) : Result Z :=
  let found := parameters !! DatumParameterKey.TotalLpTokens in
  if truthy found
  then match found with
       | Some (VInt z) => Ok z
       | Some (VBytes b) => BigInt_of_string b
       | None => Ok 0
       end
  else Ok 0.

(** The [try] block: the datum is fetched and pulled against the pool
    definition, then the pool is put together. *)
Definition liquidityPoolFromUtxo_try (this : Instance) (utxo : UTxO) (hash : string)
    (poolNft : Asset) (first second : AssetBalance) : Result FoundPool :=
  datum ← datumValue hash;
  parameters ← pull poolDefinition_v1 datum;
  total ← totalLpTokens_of parameters;
  mret {| liquidityPool :=
            {| dex := "SaturnSwap";
               assetA := asset first;
               assetB := asset second;
               reserveA := quantity first;
               reserveB := quantity second;
               pool_address := address utxo;
               marketOrderAddress := orderAddress this;
               limitOrderAddress := orderAddress this;
               identifier := Asset_identifier poolNft;
               poolFeePercent := 0x1.3333333333333p-2%float |};
          lpToken := mkAsset (VBytes lpTokenPolicyId) (nameHex poolNft);
          totalLpTokens := total |}.

(** [liquidityPoolFromUtxo]: [undefined] without a datum hash, without a pool
    NFT, with fewer than two relevant assets, and when the [try] block
    throws. *)
Definition liquidityPoolFromUtxo (this : Instance) (utxo : UTxO) : option FoundPool :=
  match datumHash utxo with
  | None => None
  | Some hash =>
      if String.eqb hash "" then None
      else
        match List.find isPoolNft (assetBalances utxo) with
        | Some {| asset := TokenAsset poolNft |} =>
            match List.filter isRelevant (assetBalances utxo) with
            | first :: second :: _ =>
                match liquidityPoolFromUtxo_try this utxo hash poolNft first second with
                | Ok found => Some found
                | Err _ => None
                end
            | _ => None
            end
        | _ => None
        end
  end.

End FromUtxo.

End AmmPools.

(** ** [liquidityPoolFromUtxo], second revision *)

Module ClobPools.

(** The tokens of a control datum: lovelace, or an asset made of the policy
    id and the asset name as the datum holds them. *)
Inductive ControlToken : Type :=
| ControlLovelace
| ControlAsset (policyId assetName : Decode.Data).

Record PriceRange : Type := mkPriceRange {
  min : Z;
  max : Z;
  range_precision : Z;
}.

(** [liquidityPool.extra]. *)
Record Extra : Type := mkExtra {
  controlDatum : Decode.ControlDatum;
  extra_isActive : bool;
  priceRangeOne : PriceRange;
  priceRangeTwo : PriceRange;
}.

(** The pool as the method leaves it. *)
Record ControlPool : Type := mkControlPool {
  pool_dex : string;
  tokenA : ControlToken;
  tokenB : ControlToken;
  pool_reserveA : Z;
  pool_reserveB : Z;
  utxo_address : string;
  pool_marketOrderAddress : string;
  pool_limitOrderAddress : string;
  extra : Extra;
  pool_identifier : string;
  pool_feePercent : float;
}.

(** [policyId === '' ? 'lovelace' : new Asset(policyId, assetName)]. *)
Definition token_of (control : Decode.TokenControl) : ControlToken :=
  match Decode.control_policyId control with
  | Decode.DataBytes "" => ControlLovelace
  | policy => ControlAsset policy (Decode.control_assetName control)
  end.

Section FromUtxo.

Variable Data_from : string -> Result Decode.Data.
Variable BigInt_coerce : Decode.Data -> Result Z.

(** [provider.datumValue] of the absent data provider. *)
Variable datumValue : string -> Result EncodedDatum.

(** The pool built from a control datum. *)
Definition poolOfControlDatum (this : Instance) (utxo : UTxO)
    (controlDatum : Decode.ControlDatum) : ControlPool :=
  {| pool_dex := "SaturnSwap";
     tokenA := token_of (Decode.tokenOne controlDatum);
     tokenB := token_of (Decode.tokenTwo controlDatum);
     pool_reserveA := 0;
     pool_reserveB := 0;
     utxo_address := address utxo;
     pool_marketOrderAddress := orderAddress this;
     pool_limitOrderAddress := orderAddress this;
     extra :=
       {| controlDatum := controlDatum;
          extra_isActive := Decode.isActive controlDatum;
          priceRangeOne :=
            {| min := Decode.minPrice (Decode.tokenOne controlDatum);
               max := Decode.maxPrice (Decode.tokenOne controlDatum);
               range_precision := Decode.precision (Decode.tokenOne controlDatum) |};
          priceRangeTwo :=
            {| min := Decode.minPrice (Decode.tokenTwo controlDatum);
               max := Decode.maxPrice (Decode.tokenTwo controlDatum);
               range_precision := Decode.precision (Decode.tokenTwo controlDatum) |} |};
     pool_identifier := txHash utxo +:+ "#" +:+ pretty (outputIndex utxo);
     pool_feePercent := 0x1.3333333333333p-2%float |}.

(** [liquidityPoolFromUtxo]: the datum is fetched, and the control datum is
    decoded from the datum hash of the output; what the decoder logs is
    handed on. *)
Definition liquidityPoolFromUtxo (this : Instance) (utxo : UTxO)
    : Decode.Decoded ControlPool :=
  match datumHash utxo with
  | None => Decode.mkDecoded None []
  | Some hash =>
      if String.eqb hash "" then Decode.mkDecoded None []
      else
        match datumValue hash with
        | Err _ => Decode.mkDecoded None []
        | Ok datum =>
            let decoded := Decode.decodeControlDatum Data_from BigInt_coerce hash in
            Decode.mkDecoded
              (poolOfControlDatum this utxo <$> Decode.returned decoded)
              (Decode.logged decoded)
        end
  end.

End FromUtxo.

End ClobPools.

(** ** More concrete inputs *)

Module Inputs.

(** The sample pool with the fee at 1 percent, and with a fee that is no
    number. *)
Definition dearPool : LiquidityPool :=
  {| dex := dex Sample.pool;
     assetA := assetA Sample.pool;
     assetB := assetB Sample.pool;
     reserveA := reserveA Sample.pool;
     reserveB := reserveB Sample.pool;
     pool_address := pool_address Sample.pool;
     marketOrderAddress := marketOrderAddress Sample.pool;
     limitOrderAddress := limitOrderAddress Sample.pool;
     identifier := "dear pool";
     poolFeePercent := 1%float |}.

Definition brokenPool : LiquidityPool :=
  {| dex := dex Sample.pool;
     assetA := assetA Sample.pool;
     assetB := assetB Sample.pool;
     reserveA := reserveA Sample.pool;
     reserveB := reserveB Sample.pool;
     pool_address := pool_address Sample.pool;
     marketOrderAddress := marketOrderAddress Sample.pool;
     limitOrderAddress := limitOrderAddress Sample.pool;
     identifier := "broken pool";
     poolFeePercent := nan |}.

(** A swap datum with an expiry, one with the expiry the order definition
    writes, and one with two fields only. *)
Definition swapDatum (expiryField : Decode.Data) : Decode.Data :=
  Decode.Constr 0 [
    Decode.Constr 0 [];
    Decode.DataBytes ""; Decode.DataBytes ""; Decode.DataInt 5000000;
    Decode.DataBytes "533bb94a8850ee3ccbe483106489399112b74c905342cb1792a797a0";
    Decode.DataBytes "494e4459"; Decode.DataInt 9500000;
    expiryField;
    Decode.Constr 0 [Decode.DataBytes "7c1e"; Decode.DataInt 0]
  ].

Definition shortDatum : Decode.Data :=
  Decode.Constr 0 [Decode.DataBytes ""; Decode.DataInt 1].

(** A control datum with the activity flag given. *)
Definition controlDatum (flag : Decode.Data) : Decode.Data :=
  Decode.Constr 2 [
    Decode.DataBytes ""; Decode.DataBytes "";
    Decode.DataInt 1; Decode.DataInt 250000; Decode.DataInt 6;
    Decode.DataBytes "533bb94a8850ee3ccbe483106489399112b74c905342cb1792a797a0";
    Decode.DataBytes "494e4459";
    Decode.DataInt 4; Decode.DataInt 9000000; Decode.DataInt 6;
    flag
  ].

(** A reader that takes every string for the given datum. *)
Definition reads (datum : Decode.Data) (datumCbor : string) : Result Decode.Data :=
  Ok datum.

(** The datum pushed from the sample pool parameters. *)
Definition poolDatum : EncodedDatum :=
  DConstr 2 [DBytes ""; DBytes ""; DInt 1; DInt 250000; DInt 6;
             DBytes "533bb94a8850ee3ccbe483106489399112b74c905342cb1792a797a0";
             DBytes "494e4459"; DInt 4; DInt 9000000; DInt 6; DInt 1].

(** A reader that inverts [Sample.getCbor] on the datum of the sample order. *)
Definition readsOrder (datumCbor : string) : Result Decode.Data :=
  match push orderDefinition Sample.orderParameters with
  | Ok built =>
      if String.eqb datumCbor (Sample.getCbor built)
      then Ok (Wire.to_data built)
      else Err (Error "Invalid CBOR")
  | Err e => Err e
  end.

(** An output at the pool address of the first revision: the pool NFT, an LP
    token, lovelace and a token; and the datum stored under its hash. *)
Definition poolNft : Asset :=
  mkAsset (VBytes AmmPools.poolNftPolicyId) (Some (VBytes "706f6f6c31")).

Definition poolOutput : UTxO :=
  {| txHash := "b2";
     address := "addr1_SATURN_POOL_ADDRESS";
     datumHash := Some "d3";
     outputIndex := 0;
     assetBalances :=
       [ {| asset := TokenAsset poolNft; quantity := 1 |};
         {| asset := TokenAsset (mkAsset (VBytes AmmPools.lpTokenPolicyId)
                                         (Some (VBytes "706f6f6c31")));
            quantity := 10 |};
         {| asset := lovelace; quantity := 1000000 |};
         {| asset := Sample.tokenB; quantity := 2000000 |} ] |}.

Definition poolDatum_v1 : EncodedDatum :=
  DConstr 0 [DBytes "706f6f6c31";
             DConstr 0 [DBytes ""; DBytes ""];
             DConstr 0 [DBytes "533bb94a8850ee3ccbe483106489399112b74c905342cb1792a797a0";
                        DBytes "494e4459"];
             DInt 1000000; DInt 2000000; DInt 1414213; DInt 3; DInt 1000].

Definition datumValue (hash : string) : Result EncodedDatum :=
  if String.eqb hash "d3" then Ok poolDatum_v1 else Err (Error "datum not found").

Definition Asset_identifier (a : Asset) : string :=
  match policyId a, nameHex a with
  | VBytes policy, Some (VBytes name) => policy +:+ name
  | _, _ => ""
  end.

Definition BigInt_of_string (s : string) : Result Z :=
  Err (SyntaxError "Cannot convert to a BigInt").

(** An output of the second revision whose datum hash reads as a control
    datum. *)
Definition controlOutput : UTxO :=
  {| txHash := "c4"; address := Clob.LIQUIDITY_ADDRESS; datumHash := Some "d5";
     outputIndex := 3;
     assetBalances := [ {| asset := lovelace; quantity := 2000000 |} ] |}.

(** A datum store that holds the pool datum under every hash. *)
Definition anyDatum (hash : string) : Result EncodedDatum := Ok poolDatum.

End Inputs.

(** * Properties *)

(** ** Arithmetic of [bigint] division *)

Lemma bigint_div_floor a b :
  0 <= a -> 0 < b -> bigint_div a b = Ok (a / b).
Proof.
  intros Ha Hb. unfold bigint_div.
  destruct (Z.eqb_spec b 0) as [->|_]; [lia|].
  by rewrite Z.quot_div_nonneg.
Qed.

Lemma bigint_div_zero a : bigint_div a 0 = Err (RangeError "Division by zero").
Proof. reflexivity. Qed.

Lemma bigint_div_nonzero a b : b <> 0 -> bigint_div a b = Ok (Z.quot a b).
Proof.
  intros Hb. unfold bigint_div. by destruct (Z.eqb_spec b 0).
Qed.

(** The floor quotient never exceeds the exact one. *)
Lemma floor_div_below a b : 0 < b -> a / b * b <= a.
Proof. intros Hb. rewrite Z.mul_comm. by apply Z.mul_div_le. Qed.

(** One more than the floor quotient exceeds the exact one. *)
Lemma succ_floor_div_above a b : 0 < b -> a < (a / b + 1) * b.
Proof.
  intros Hb. pose proof (Z.mul_succ_div_gt a b Hb) as H.
  unfold Z.succ in H. lia.
Qed.

(** An integer that is not zero stays so among the rationals. *)
Ltac inject_nonzero :=
  change 0%Q with (inject_Z 0); rewrite inject_Z_injective; lia.

(** ** Swap arithmetic *)

Section SwapMathFacts.

Variable correspondingReserves : LiquidityPool -> Token -> Z * Z.

Lemma poolFeeModifier_of_bps liquidityPool feeBps :
  Amm.poolFeeBps liquidityPool = Ok feeBps ->
  Amm.poolFeeModifier liquidityPool = Ok (10000 - feeBps).
Proof. unfold Amm.poolFeeModifier. intros ->. reflexivity. Qed.

Lemma estimatedReceive_value
    liquidityPool swapInToken amountIn feeBps reserveIn reserveOut :
  Amm.poolFeeBps liquidityPool = Ok feeBps ->
  correspondingReserves liquidityPool swapInToken = (reserveIn, reserveOut) ->
  Amm.estimatedReceive correspondingReserves liquidityPool swapInToken amountIn
    = bigint_div (amountIn * reserveOut * (10000 - feeBps))
                 (amountIn * (10000 - feeBps) + reserveIn * 10000).
Proof.
  intros Hfee Hres. unfold Amm.estimatedReceive.
  rewrite (poolFeeModifier_of_bps _ _ Hfee). cbn. by rewrite Hres.
Qed.

Lemma estimatedGive_value
    liquidityPool swapOutToken amountOutWanted feeBps reserveIn reserveOut :
  Amm.poolFeeBps liquidityPool = Ok feeBps ->
  correspondingReserves liquidityPool swapOutToken = (reserveOut, reserveIn) ->
  Amm.estimatedGive correspondingReserves liquidityPool swapOutToken amountOutWanted
    = q ← bigint_div (amountOutWanted * reserveIn * 10000)
                     ((reserveOut - amountOutWanted) * (10000 - feeBps));
      mret (q + 1).
Proof.
  intros Hfee Hres. unfold Amm.estimatedGive.
  rewrite (poolFeeModifier_of_bps _ _ Hfee). cbn. by rewrite Hres.
Qed.

Lemma estimatedReceive_floor
    liquidityPool swapInToken amountIn feeBps reserveIn reserveOut :
  Amm.poolFeeBps liquidityPool = Ok feeBps ->
  correspondingReserves liquidityPool swapInToken = (reserveIn, reserveOut) ->
  0 < reserveIn -> 0 <= reserveOut -> 0 <= feeBps < 10000 -> 0 <= amountIn ->
  Amm.estimatedReceive correspondingReserves liquidityPool swapInToken amountIn
    = Ok (amountIn * (10000 - feeBps) * reserveOut
          / (amountIn * (10000 - feeBps) + reserveIn * 10000)).
Proof.
  intros Hfee Hres HrI HrO Hbps Hin.
  rewrite (estimatedReceive_value _ _ _ _ _ _ Hfee Hres).
  rewrite bigint_div_floor by nia. do 2 f_equal. ring.
Qed.

Lemma estimatedGive_floor_succ
    liquidityPool swapOutToken amountOutWanted feeBps reserveIn reserveOut :
  Amm.poolFeeBps liquidityPool = Ok feeBps ->
  correspondingReserves liquidityPool swapOutToken = (reserveOut, reserveIn) ->
  0 <= reserveIn -> 0 <= feeBps < 10000 ->
  0 <= amountOutWanted < reserveOut ->
  Amm.estimatedGive correspondingReserves liquidityPool swapOutToken amountOutWanted
    = Ok (amountOutWanted * reserveIn * 10000
          / ((reserveOut - amountOutWanted) * (10000 - feeBps)) + 1).
Proof.
  intros Hfee Hres HrI Hbps Hout.
  rewrite (estimatedGive_value _ _ _ _ _ _ Hfee Hres).
  by rewrite bigint_div_floor by nia.
Qed.

(** C2, as the code has it.  In the first revision, with the pool fee at
    [feeBps] basis points, [0 <= feeBps < 10000], a positive input reserve, a
    non-negative output reserve and a non-negative input amount,
    [estimatedReceive] returns
    [floor (amountIn * (10000 - feeBps) * reserveOut
            / (amountIn * (10000 - feeBps) + reserveIn * 10000))];
    the result, rounded down, times the divisor does not exceed the
    dividend, so the pool pays out no more than the constant product
    permits.  In the second revision [estimatedReceive] throws for every
    input. *)
Theorem estimatedReceive_constant_product
    liquidityPool swapInToken amountIn feeBps reserveIn reserveOut :
  Amm.poolFeeBps liquidityPool = Ok feeBps ->
  correspondingReserves liquidityPool swapInToken = (reserveIn, reserveOut) ->
  0 < reserveIn -> 0 <= reserveOut -> 0 <= feeBps < 10000 -> 0 <= amountIn ->
  let amountOut :=
    amountIn * (10000 - feeBps) * reserveOut
    / (amountIn * (10000 - feeBps) + reserveIn * 10000) in
  (Amm.estimatedReceive correspondingReserves liquidityPool swapInToken amountIn
     = Ok amountOut
   /\ amountOut * (amountIn * (10000 - feeBps) + reserveIn * 10000)
      <= amountIn * (10000 - feeBps) * reserveOut)
  /\ Clob.estimatedReceive liquidityPool swapInToken amountIn
     = Err (Error "SaturnSwap is a limit-order DEX. Use order book queries to determine swap amounts.").
Proof.
  intros Hfee Hres HrI HrO Hbps Hin amountOut.
  split; [split|reflexivity].
  - by apply estimatedReceive_floor.
  - subst amountOut. apply floor_div_below. nia.
Qed.

(** C3, as the code has it.  In the first revision, with the pool fee at
    [feeBps] basis points, [0 <= feeBps < 10000], positive reserves and
    [0 <= amountOutWanted < reserveOut], [estimatedGive] returns
    [floor (amountOutWanted * reserveIn * 10000
            / ((reserveOut - amountOutWanted) * (10000 - feeBps))) + 1]:
    the required input rounded up by the trailing [+ 1], which lies strictly
    above the exact quotient.  In the second revision [estimatedGive] throws
    for every input. *)
Theorem estimatedGive_constant_product
    liquidityPool swapOutToken amountOutWanted feeBps reserveIn reserveOut :
  Amm.poolFeeBps liquidityPool = Ok feeBps ->
  correspondingReserves liquidityPool swapOutToken = (reserveOut, reserveIn) ->
  0 < reserveIn -> 0 < reserveOut -> 0 <= feeBps < 10000 ->
  0 <= amountOutWanted < reserveOut ->
  let amountIn :=
    amountOutWanted * reserveIn * 10000
    / ((reserveOut - amountOutWanted) * (10000 - feeBps)) + 1 in
  (Amm.estimatedGive correspondingReserves liquidityPool swapOutToken amountOutWanted
     = Ok amountIn
   /\ amountOutWanted * reserveIn * 10000
      < amountIn * ((reserveOut - amountOutWanted) * (10000 - feeBps)))
  /\ Clob.estimatedGive liquidityPool swapOutToken amountOutWanted
     = Err (Error "SaturnSwap is a limit-order DEX. Use order book queries to determine swap amounts.").
Proof.
  intros Hfee Hres HrI HrO Hbps Hout amountIn.
  split; [split|reflexivity].
  - apply estimatedGive_floor_succ; try done. lia.
  - subst amountIn. apply succ_floor_div_above. nia.
Qed.

(** C5.  In the first revision, for a pool with positive reserves and the
    fee at [feeBps] basis points, [0 <= feeBps < 10000], and
    [0 < X < reserveOut]: [estimatedGive] returns an amount [amountIn], and
    [estimatedReceive] of that amount returns at least [X]. *)
Theorem estimatedReceive_of_estimatedGive
    liquidityPool swapInToken swapOutToken X feeBps reserveIn reserveOut :
  Amm.poolFeeBps liquidityPool = Ok feeBps ->
  correspondingReserves liquidityPool swapOutToken = (reserveOut, reserveIn) ->
  correspondingReserves liquidityPool swapInToken = (reserveIn, reserveOut) ->
  0 < reserveIn -> 0 < reserveOut -> 0 <= feeBps < 10000 ->
  0 < X < reserveOut ->
  exists amountIn amountOut,
    Amm.estimatedGive correspondingReserves liquidityPool swapOutToken X = Ok amountIn
    /\ Amm.estimatedReceive correspondingReserves liquidityPool swapInToken amountIn
       = Ok amountOut
    /\ X <= amountOut.
Proof.
  intros Hfee HresO HresI HrI HrO Hbps HX.
  set (amountIn := X * reserveIn * 10000 / ((reserveOut - X) * (10000 - feeBps)) + 1).
  assert (X * reserveIn * 10000 < amountIn * ((reserveOut - X) * (10000 - feeBps)))
    as Habove by (apply succ_floor_div_above; nia).
  assert (0 < amountIn) as Hpos.
  { subst amountIn.
    assert (0 <= X * reserveIn * 10000 / ((reserveOut - X) * (10000 - feeBps)))
      by (apply Z.div_pos; nia).
    lia. }
  eexists amountIn, _. split; [|split].
  - apply estimatedGive_floor_succ; try done; lia.
  - apply estimatedReceive_floor; try done; lia.
  - apply Z.div_le_lower_bound; nia.
Qed.

(** C4, as the code has it.  No revision raises a failure of its own for
    want of liquidity.  The first revision checks no liquidity: for a pool
    with non-negative reserves and the fee at [feeBps] basis points,
    [0 <= feeBps < 10000], and [reserveOut <= amountOutWanted], the call
    fails only at [amountOutWanted = reserveOut], with the [RangeError] of a
    [bigint] division by zero; beyond the reserve it returns the quotient
    truncated towards zero plus one, a number that is at most [1].  The
    second revision throws the same [Error] for every input, whatever the
    reserve. *)
Theorem estimatedGive_at_or_beyond_reserve
    liquidityPool swapOutToken amountOutWanted feeBps reserveIn reserveOut :
  Amm.poolFeeBps liquidityPool = Ok feeBps ->
  correspondingReserves liquidityPool swapOutToken = (reserveOut, reserveIn) ->
  0 <= reserveIn -> 0 <= reserveOut -> 0 <= feeBps < 10000 ->
  reserveOut <= amountOutWanted ->
  (amountOutWanted = reserveOut ->
   Amm.estimatedGive correspondingReserves liquidityPool swapOutToken amountOutWanted
     = Err (RangeError "Division by zero"))
  /\ (reserveOut < amountOutWanted ->
      exists amountIn,
        Amm.estimatedGive correspondingReserves liquidityPool swapOutToken amountOutWanted
          = Ok amountIn
        /\ amountIn = Z.quot (amountOutWanted * reserveIn * 10000)
                             ((reserveOut - amountOutWanted) * (10000 - feeBps)) + 1
        /\ amountIn <= 1)
  /\ Clob.estimatedGive liquidityPool swapOutToken amountOutWanted
     = Err (Error "SaturnSwap is a limit-order DEX. Use order book queries to determine swap amounts.").
Proof.
  intros Hfee Hres HrI HrO Hbps Hout.
  rewrite (estimatedGive_value _ _ _ _ _ _ Hfee Hres). split; [|split; [|done]].
  - intros ->. by rewrite Z.sub_diag, Z.mul_0_l.
  - intros Hlt. rewrite bigint_div_nonzero by nia.
    eexists. split; [reflexivity|]. split; [reflexivity|].
    assert (Z.quot (amountOutWanted * reserveIn * 10000)
                   ((reserveOut - amountOutWanted) * (10000 - feeBps)) <= 0);
      [|lia].
    rewrite <- (Z.opp_involutive ((reserveOut - amountOutWanted) * (10000 - feeBps))).
    rewrite Z.quot_opp_r by nia.
    assert (0 <= Z.quot (amountOutWanted * reserveIn * 10000)
                        (- ((reserveOut - amountOutWanted) * (10000 - feeBps))));
      [apply Z.quot_pos; nia | lia].
Qed.

(** C8, as the code has it.  In the first revision [priceImpactPercent]
    works on [bigint] terms up to the last step: with the fee modifier
    obtained as in [estimatedReceive], its two intermediate terms are the
    dividend and the divisor of [estimatedReceive]; from them it forms an
    integer numerator and an integer denominator, and only the final
    percentage is a [number], [Number (numerator * 100) / Number denominator].
    For a positive amount and positive reserves the exact ratio of the two
    integers is the relative deviation of the effective price of the trade
    ([swapOutNumerator / swapOutDenominator] per unit of input) from the spot
    price [reserveOut / reserveIn], less the share of the fee,
    [feeBps / 10000]: the impact net of the fee.  In the second revision
    [priceImpactPercent] is the constant [0]. *)
Theorem priceImpactPercent_integer_terms
    liquidityPool swapInToken amountIn feeBps reserveIn reserveOut :
  Amm.poolFeeBps liquidityPool = Ok feeBps ->
  correspondingReserves liquidityPool swapInToken = (reserveIn, reserveOut) ->
  let feeModifier := 10000 - feeBps in
  let swapOutNumerator := amountIn * reserveOut * feeModifier in
  let swapOutDenominator := amountIn * feeModifier + reserveIn * 10000 in
  let impactNumerator :=
    reserveOut * amountIn * swapOutDenominator * feeModifier
    - swapOutNumerator * reserveIn * 10000 in
  let impactDenominator := reserveOut * amountIn * swapOutDenominator * 10000 in
  Amm.estimatedReceive correspondingReserves liquidityPool swapInToken amountIn
    = bigint_div swapOutNumerator swapOutDenominator
  /\ Amm.priceImpactPercent correspondingReserves liquidityPool swapInToken amountIn
     = Ok (PrimFloat.div (Number_of_bigint (impactNumerator * 100))
                         (Number_of_bigint impactDenominator))
  /\ (0 < amountIn -> 0 < reserveIn -> 0 < reserveOut -> 0 <= feeBps < 10000 ->
      let spotPrice := (inject_Z reserveOut / inject_Z reserveIn)%Q in
      let effectivePrice :=
        (inject_Z swapOutNumerator / inject_Z swapOutDenominator / inject_Z amountIn)%Q in
      (inject_Z impactNumerator / inject_Z impactDenominator
       == (spotPrice - effectivePrice) / spotPrice
          - inject_Z feeBps / inject_Z 10000)%Q)
  /\ Clob.priceImpactPercent liquidityPool swapInToken amountIn = Ok 0%float.
Proof.
  intros Hfee Hres feeModifier swapOutNumerator swapOutDenominator
    impactNumerator impactDenominator.
  split; [|split; [|split; [|reflexivity]]].
  - by apply estimatedReceive_value.
  - unfold Amm.priceImpactPercent.
    rewrite (poolFeeModifier_of_bps _ _ Hfee). cbn. rewrite Hres.
    unfold Amm.poolFeeMultiplier.
    subst impactNumerator impactDenominator swapOutNumerator swapOutDenominator feeModifier.
    do 3 f_equal; f_equal; ring.
  - intros Hin HrI HrO Hbps spotPrice effectivePrice.
    assert (0 < swapOutDenominator) as HD by (subst swapOutDenominator feeModifier; nia).
    subst spotPrice effectivePrice impactNumerator impactDenominator swapOutNumerator.
    clearbody swapOutDenominator. subst feeModifier.
    unfold Z.sub.
    repeat progress rewrite ?inject_Z_plus, ?inject_Z_mult, ?inject_Z_opp.
    assert (~ inject_Z amountIn == 0)%Q as Ha by inject_nonzero.
    assert (~ inject_Z reserveIn == 0)%Q as Hi by inject_nonzero.
    assert (~ inject_Z reserveOut == 0)%Q as Ho by inject_nonzero.
    assert (~ inject_Z swapOutDenominator == 0)%Q as Hd by inject_nonzero.
    assert (~ inject_Z 10000 == 0)%Q as Hm by done.
    field. repeat split; assumption.
Qed.

End SwapMathFacts.

(** ** The datum codec: pull after push *)

Lemma recorded_app params found ls1 ls2 :
  recorded params found (ls1 ++ ls2) = recorded params (recorded params found ls1) ls2.
Proof. apply foldl_app. Qed.

Lemma recorded_cons params found l ls :
  recorded params found (l :: ls)
  = recorded params
      (match params !! l.1 with Some v => <[l.1 := v]> found | None => found end) ls.
Proof. reflexivity. Qed.

Lemma recorded_lookup params ls : forall found k,
  recorded params found ls !! k
  = if decide (k ∈ ls.*1)
    then match params !! k with Some v => Some v | None => found !! k end
    else found !! k.
Proof.
  induction ls as [|[key kind] ls IH]; intros found k.
  - cbn. case_decide as Hk; [by apply elem_of_nil in Hk | done].
  - rewrite recorded_cons, IH. cbn.
    destruct (decide (k ∈ ls.*1)) as [Hin|Hnin].
    + rewrite decide_True by (by right).
      destruct (params !! k) as [v|] eqn:Hv; [done|].
      destruct (params !! key) as [w|] eqn:Hw; [|done].
      rewrite lookup_insert_ne; [done|congruence].
    + destruct (decide (k = key)) as [->|Hne].
      * rewrite decide_True by (by left).
        destruct (params !! key) as [v|] eqn:Hv; [by rewrite lookup_insert_eq|done].
      * rewrite decide_False by (intros [?|?]%elem_of_cons; done).
        destruct (params !! key); [by rewrite lookup_insert_ne|done].
Qed.

Lemma mapR_cons {A B : Type} (f : A -> Result B) a l :
  mapR f (a :: l) = b ← f a; bs ← mapR f l; mret (b :: bs).
Proof. reflexivity. Qed.

Lemma foldR2_cons {A B S : Type} (f : A -> B -> S -> Result S) a la b lb acc :
  foldR2 f (a :: la) (b :: lb) acc = acc' ← f a b acc; foldR2 f la lb acc'.
Proof. reflexivity. Qed.

Lemma served_lookup params key kind :
  served params (key, kind) = true ->
  exists v, params !! key = Some v /\ kind_of v = kind.
Proof.
  unfold served. cbn. destruct (params !! key) as [v|]; [|done].
  intros Hk. exists v. split; [done|].
  by destruct v, kind.
Qed.

(** Keys that the table does not hold leave no trace in what is recorded. *)
Lemma recorded_absent params found ls :
  existsb (holds params) ls.*1 = false -> recorded params found ls = found.
Proof.
  revert found. induction ls as [|[key kind] ls IH]; intros found Hnone; [done|].
  cbn in Hnone. apply orb_false_elim in Hnone as [Hkey Hrest].
  rewrite recorded_cons. cbn. unfold holds in Hkey.
  destruct (params !! key); [done|]. by apply IH.
Qed.

(** A table that fits a schema pushes to a datum, and the walk of [pull]
    over that datum records exactly the leaves the table holds. *)
Lemma push_then_pull_into params schema :
  fits params schema = true ->
  exists datum,
    push schema params = Ok datum
    /\ forall found,
         pull_into schema datum found = Ok (recorded params found (leaves schema)).
Proof.
  induction schema as [tag fields IH|key|key|none some inner IH]
    using SchemaNode_rect_fields; intros Hfits.
  - assert (exists children,
               mapR (fun field => push field params) fields = Ok children
               /\ length fields = length children
               /\ forall found,
                    foldR2 pull_into fields children found
                    = Ok (recorded params found (flat_map leaves fields)))
      as (children & Hpush & Hlen & Hpull).
    { cbn [fits] in Hfits. clear tag.
      induction IH as [|field fields Hfield _ IHfields].
      - exists []. by repeat split.
      - cbn [forallb] in Hfits.
        apply andb_prop in Hfits as [Hhead Htail].
        destruct (Hfield Hhead) as (d & Hd & Hpulld).
        destruct (IHfields Htail) as (ds & Hds & Hlen & Hpullds).
        exists (d :: ds). split; [|split].
        + rewrite mapR_cons, Hd. cbn. by rewrite Hds.
        + cbn. by rewrite Hlen.
        + intros found. rewrite foldR2_cons, Hpulld.
          change (flat_map leaves (field :: fields))
            with (leaves field ++ flat_map leaves fields).
          rewrite recorded_app. apply Hpullds. }
    exists (DConstr tag children). split.
    + cbn. by rewrite Hpush.
    + intros found. cbn [pull_into].
      rewrite N.eqb_refl, Hlen, Nat.eqb_refl. cbn. apply Hpull.
  - cbn in Hfits.
    apply served_lookup in Hfits as (v & Hv & Hkind).
    destruct v as [b|z]; [|done].
    exists (DBytes b). split; [cbn; by rewrite Hv|].
    intros found. cbn. by rewrite Hv.
  - cbn in Hfits.
    apply served_lookup in Hfits as (v & Hv & Hkind).
    destruct v as [b|z]; [done|].
    exists (DInt z). split; [cbn; by rewrite Hv|].
    intros found. cbn. by rewrite Hv.
  - cbn [fits] in Hfits. cbn [push leaves].
    destruct (existsb (holds params) (keys inner)) eqn:Hany.
    + destruct (IH Hfits) as (child & Hchild & Hpull).
      exists (DConstr some [child]). split; [by rewrite Hchild|].
      intros found. cbn [pull_into]. by rewrite N.eqb_refl.
    + exists (DConstr none []). split; [done|].
      intros found. cbn [pull_into]. rewrite N.eqb_refl.
      by rewrite recorded_absent.
Qed.

(** C1. Pull after push is the identity: for every schema, optional fields
    included, and every parameter table valid for it (each of its keys is a
    leaf key of the schema, every leaf outside an optional field finds a
    value of its kind, and an optional field is absent or served in turn),
    [push] yields a datum and [pull] of that datum yields the same table; no
    key is dropped, overwritten with another value or assigned to another
    key, also when a key occurs at several leaves, as [LpFee] does in
    [poolDefinition]. *)
Theorem pull_push_round_trip schema (params : DatumParameters) :
  valid schema params = true ->
  exists datum,
    push schema params = Ok datum /\ pull schema datum = Ok params.
Proof.
  unfold valid. intros [Hdom Hfits]%andb_prop.
  apply bool_decide_eq_true in Hdom.
  destruct (push_then_pull_into params schema Hfits) as (datum & Hpush & Hpull).
  exists datum. split; [done|].
  unfold pull. rewrite Hpull. f_equal.
  apply map_eq. intros k. rewrite recorded_lookup, lookup_empty.
  case_decide as Hk.
  - by destruct (params !! k).
  - symmetry. apply not_elem_of_dom. intros Hin.
    apply Hdom in Hin. by apply elem_of_list_to_set in Hin.
Qed.

(** A table with keys beyond those of the schema still pushes, and pull gives
    back its restriction to the leaf keys: validity cannot be weakened to
    fitting the schema. *)
Lemma pull_push_restriction schema (params : DatumParameters) :
  fits params schema = true ->
  exists datum,
    push schema params = Ok datum
    /\ pull schema datum
       = Ok (filter (fun entry => entry.1 ∈ keys schema) params).
Proof.
  intros Hfits.
  destruct (push_then_pull_into params schema Hfits) as (datum & Hpush & Hpull).
  exists datum. split; [done|].
  unfold pull. rewrite Hpull. f_equal.
  apply map_eq. intros k. rewrite recorded_lookup, lookup_empty.
  case_decide as Hk.
  - destruct (params !! k) as [v|] eqn:Hv.
    + symmetry. by apply map_lookup_filter_Some.
    + symmetry. apply map_lookup_filter_None. left. done.
  - symmetry. apply map_lookup_filter_None. right. intros v _. done.
Qed.

(** [push] fails only for want of a parameter: the failure names a leaf key
    of the schema that the table lacks. *)
Lemma push_failure schema (params : DatumParameters) e :
  push schema params = Err e ->
  exists key, e = MissingParameter key /\ key ∈ keys schema /\ params !! key = None.
Proof.
  revert e.
  induction schema as [tag fields IH|key|key|none some inner IH]
    using SchemaNode_rect_fields; intros e Hpush.
  - assert (mapR (fun field => push field params) fields = Err e) as Hfields.
    { cbn in Hpush.
      by destruct (mapR (fun field => push field params) fields)
        as [children|e'] eqn:Hc; cbn in Hpush; simplify_eq. }
    clear Hpush. unfold keys. cbn [leaves]. clear tag.
    induction IH as [|field fields Hfield _ IHfields]; [done|].
    rewrite mapR_cons in Hfields. cbn [flat_map]. rewrite fmap_app.
    destruct (push field params) as [d|e'] eqn:Hd; cbn in Hfields.
    + destruct (mapR (fun field => push field params) fields) as [ds|e'] eqn:Hds;
        cbn in Hfields; simplify_eq.
      destruct (IHfields eq_refl) as (key & -> & Hin & Hnone).
      exists key. repeat split; [|done]. apply elem_of_app. by right.
    + simplify_eq. destruct (Hfield e eq_refl) as (key & -> & Hin & Hnone).
      exists key. repeat split; [|done]. apply elem_of_app. by left.
  - cbn in Hpush. destruct (params !! key) eqn:Hk; simplify_eq.
    exists key. repeat split; [|done]. unfold keys. cbn. set_solver.
  - cbn in Hpush. destruct (params !! key) eqn:Hk; simplify_eq.
    exists key. repeat split; [|done]. unfold keys. cbn. set_solver.
  - cbn [push] in Hpush.
    destruct (existsb (holds params) (keys inner)); [|done].
    destruct (push inner params) as [child|e'] eqn:Hchild; cbn in Hpush; simplify_eq.
    destruct (IH e eq_refl) as (key & -> & Hin & Hnone).
    by exists key.
Qed.


(** A datum whose constructor tag differs from the tag of the schema is a
    [SchemaMismatch] for [pull]; no table is returned. *)
Lemma pull_tag_mismatch tag fields tag' children :
  tag <> tag' ->
  pull (Constructor tag fields) (DConstr tag' children) = Err SchemaMismatch.
Proof.
  intros Hne. unfold pull. cbn.
  by destruct (N.eqb_spec tag tag').
Qed.

(** ** The datum decoders *)

(** C9, as the code has it.  A datum whose constructor index is not the
    expected one (0 for a swap datum, 2 for a control datum) yields no record,
    and no failure reaches the caller either: both decoders return [null].
    [decodeSwapDatum] throws an [Error] inside its [try] block, catches and
    logs it; [decodeControlDatum] returns [null] at once and logs nothing. *)
Theorem decode_constructor_mismatch_null
    (Data_from : string -> Result Decode.Data)
    (BigInt_coerce : Decode.Data -> Result Z) datumCbor datum :
  Data_from datumCbor = Ok datum ->
  (Decode.index_of datum <> Some 0 ->
   Decode.decodeSwapDatum Data_from BigInt_coerce datumCbor
   = Decode.mkDecoded None
       [("Failed to decode SwapDatum:", Error "Invalid SwapDatum constructor index")])
  /\ (Decode.index_of datum <> Some 2 ->
      Decode.decodeControlDatum Data_from BigInt_coerce datumCbor
      = Decode.mkDecoded None []).
Proof.
  intros Hfrom. split; intros Hindex.
  - unfold Decode.decodeSwapDatum, Decode.decodeSwapDatum_try.
    rewrite Hfrom. cbn. by rewrite bool_decide_eq_false_2.
  - unfold Decode.decodeControlDatum, Decode.decodeControlDatum_try.
    rewrite Hfrom. cbn. by rewrite bool_decide_eq_false_2.
Qed.

(** Neither decoder ever hands a failure to its caller: bytes that denote no
    datum are [null] as well. *)
Lemma decode_malformed_null
    (Data_from : string -> Result Decode.Data)
    (BigInt_coerce : Decode.Data -> Result Z) datumCbor e :
  Data_from datumCbor = Err e ->
  Decode.returned (Decode.decodeSwapDatum Data_from BigInt_coerce datumCbor) = None
  /\ Decode.returned (Decode.decodeControlDatum Data_from BigInt_coerce datumCbor) = None.
Proof.
  intros Hfrom.
  unfold Decode.decodeSwapDatum, Decode.decodeSwapDatum_try,
    Decode.decodeControlDatum, Decode.decodeControlDatum_try.
  by rewrite Hfrom.
Qed.

(** ** Order cancellation *)

Lemma find_none_Forall {A : Type} (f : A -> bool) (l : list A) :
  List.find f l = None <-> Forall (fun a => f a = false) l.
Proof.
  induction l as [|a l IH]; cbn.
  - split; [constructor|done].
  - destruct (f a) eqn:Hfa.
    + split; [done|]. intros H. inversion H; congruence.
    + rewrite IH. split; [by constructor|]. intros H. by inversion H.
Qed.

Lemma find_some_first {A : Type} (f : A -> bool) (l : list A) a :
  List.find f l = Some a ->
  f a = true
  /\ exists before after,
       l = before ++ a :: after /\ Forall (fun b => f b = false) before.
Proof.
  induction l as [|b l IH]; cbn; [done|].
  destruct (f b) eqn:Hfb.
  - intros [= ->]. split; [done|]. exists [], l. by split.
  - intros Hfind. destruct (IH Hfind) as (Hfa & before & after & -> & Hbefore).
    split; [done|]. exists (b :: before), after. split; [done|]. by constructor.
Qed.

(** C7. [buildCancelSwapOrder] rejects with its order-not-found message
    exactly when no output of the list sits at the order address, and it
    fails in no other way.  Otherwise the first output at the order address
    is spent: the payment goes to the return address with all the asset
    balances of that output, and its spend instruction carries the fixed
    cancel redeemer and the order validator.  The function only reads its
    arguments. *)
Theorem buildCancelSwapOrder_spec (this : Instance) (txOutputs : list UTxO)
    (returnAddress : string) :
  (buildCancelSwapOrder this txOutputs returnAddress
     = Err (RejectedWith "Unable to find Saturn order UTxO for cancellation.")
   <-> Forall (fun utxo => address utxo <> orderAddress this) txOutputs)
  /\ (forall e, buildCancelSwapOrder this txOutputs returnAddress = Err e ->
                e = RejectedWith "Unable to find Saturn order UTxO for cancellation.")
  /\ (Exists (fun utxo => address utxo = orderAddress this) txOutputs ->
      exists before relevantUtxo after,
        txOutputs = before ++ relevantUtxo :: after
        /\ Forall (fun utxo => address utxo <> orderAddress this) before
        /\ address relevantUtxo = orderAddress this
        /\ buildCancelSwapOrder this txOutputs returnAddress
           = Ok [ {| pay_address := returnAddress;
                     addressType := Base;
                     pay_assetBalances := assetBalances relevantUtxo;
                     spendUtxos := [ {| utxo := relevantUtxo;
                                        redeemer := Some (cancelDatum this);
                                        validator := Some (orderScript this);
                                        signer := Some returnAddress |} ];
                     datum := None;
                     isInlineDatum := false |} ]).
Proof.
  unfold buildCancelSwapOrder.
  destruct (List.find _ txOutputs) as [relevantUtxo|] eqn:Hfind.
  - apply find_some_first in Hfind as (Haddr & before & after & -> & Hbefore).
    apply bool_decide_eq_true in Haddr.
    assert (Forall (fun utxo => address utxo <> orderAddress this) before) as Hnot.
    { eapply Forall_impl; [exact Hbefore|]. intros utxo Hu. cbn in Hu.
      by apply bool_decide_eq_false in Hu. }
    split; [|split].
    + split; [done|]. intros Hall.
      apply Forall_app in Hall as [_ Hall]. by inversion Hall.
    + done.
    + intros _. by exists before, relevantUtxo, after.
  - apply find_none_Forall in Hfind.
    assert (Forall (fun utxo => address utxo <> orderAddress this) txOutputs) as Hnot.
    { eapply Forall_impl; [exact Hfind|]. intros utxo Hu. cbn in Hu.
      by apply bool_decide_eq_false in Hu. }
    split; [|split].
    + done.
    + by intros e [= <-].
    + intros Hex. apply Exists_exists in Hex as (utxo & Hin & Haddr).
      rewrite Forall_forall in Hnot. by destruct (Hnot utxo Hin).
Qed.

(** ** Order placement *)

Lemma find_deposit_swapOrderFees liquidityPool swapInToken swapInAmount :
  find_deposit (swapOrderFees liquidityPool swapInToken swapInAmount)
  = Some {| fee_id := "deposit";
            title := "Deposit";
            description := "Minimum ADA required for the order UTxO. Returned when order is executed or cancelled.";
            value := 2000000;
            isReturned := true |}.
Proof. reflexivity. Qed.

(** The failures of [buildSwapOrder] of the second revision once a deposit
    fee is found: a parameter that the order definition needs and the table
    lacks, or the [TypeError] of adding [undefined] to a [bigint]. *)
Lemma Clob_buildSwapOrder_with_failure getCbor fees deposit liquidityPool
    (swapParameters : DatumParameters) spendUtxos e :
  find_deposit fees = Some deposit ->
  Clob.buildSwapOrder_with getCbor fees liquidityPool swapParameters spendUtxos = Err e ->
  (exists key, e = MissingParameter key)
  \/ e = TypeError "Cannot mix BigInt and other types, use explicit conversions".
Proof.
  intros Hfind. unfold Clob.buildSwapOrder_with. rewrite Hfind.
  destruct (push orderDefinition _) as [built|e'] eqn:Hpush; cbn.
  - unfold Clob.bigint_plus.
    destruct (swapParameters !! DatumParameterKey.SwapInAmount) as [[b|z]|];
      cbn; [done..|].
    intros [= <-]. by right.
  - intros [= <-]. apply push_failure in Hpush as (key & -> & _). left. by exists key.
Qed.

(** C10. For every input, the optional arguments given or omitted,
    [swapOrderFees] returns a list of exactly one fee, with the id [deposit]
    and the value 2 000 000 lovelace.  So the search for the deposit fee in
    [buildSwapOrder] always succeeds and the rejection "Deposit fee not
    configured." is unreachable in both revisions: a failure of the first
    revision is a failure of the datum builder or of
    [buildSwapOrderPayment], and the second revision never fails with that
    rejection. *)
Theorem swapOrderFees_deposit_always_configured
    (liquidityPool : option LiquidityPool) (swapInToken : option Token)
    (swapInAmount : option Z) :
  (exists fee,
     swapOrderFees liquidityPool swapInToken swapInAmount = [fee]
     /\ fee_id fee = "deposit" /\ value fee = 2000000
     /\ find_deposit (swapOrderFees liquidityPool swapInToken swapInAmount) = Some fee)
  /\ (forall orderDatumCbor buildSwapOrderPayment pool
             (swapParameters : DatumParameters) spendUtxos e,
        Amm.buildSwapOrder orderDatumCbor buildSwapOrderPayment pool swapParameters spendUtxos
          = Err e ->
        orderDatumCbor (<[DatumParameterKey.DepositFee := VInt 2000000]> swapParameters)
          = Err e
        \/ exists payment,
             buildSwapOrderPayment
               (<[DatumParameterKey.DepositFee := VInt 2000000]> swapParameters) payment
             = Err e)
  /\ (forall getCbor pool (swapParameters : DatumParameters) spendUtxos,
        Clob.buildSwapOrder getCbor pool swapParameters spendUtxos
        <> Err (RejectedWith "Deposit fee not configured.")).
Proof.
  split; [|split].
  - eexists. by repeat split.
  - intros orderDatumCbor buildSwapOrderPayment pool swapParameters spendUtxos e.
    unfold Amm.buildSwapOrder, Amm.buildSwapOrder_with.
    rewrite find_deposit_swapOrderFees. cbn.
    destruct (orderDatumCbor _) as [cbor|e'] eqn:Hcbor; cbn.
    + destruct (buildSwapOrderPayment _ _) as [payment|e'] eqn:Hpay; cbn; [done|].
      intros [= <-]. right. by eexists.
    + intros [= <-]. by left.
  - intros getCbor pool swapParameters spendUtxos Hrej.
    unfold Clob.buildSwapOrder in Hrej.
    eapply Clob_buildSwapOrder_with_failure in Hrej;
      [|apply find_deposit_swapOrderFees].
    by destruct Hrej as [[key ?]|?].
Qed.

(** What [buildSwapOrder] of the second revision returns when it returns:
    the order datum was built, the sum of the deposit and the sell amount was
    formed, and the one payment goes to the order address with one asset
    balance. *)
Lemma Clob_buildSwapOrder_Ok (getCbor : EncodedDatum -> string)
    (liquidityPool : LiquidityPool) (swapParameters : DatumParameters)
    (spendUtxos : list SpendUTxO) payments :
  Clob.buildSwapOrder getCbor liquidityPool swapParameters spendUtxos = Ok payments ->
  exists deposit built totalAmount,
    find_deposit (swapOrderFees None None None) = Some deposit
    /\ value deposit = 2000000
    /\ push orderDefinition (Clob.swapDatumParameters deposit swapParameters) = Ok built
    /\ Clob.bigint_plus 2000000 (swapParameters !! DatumParameterKey.SwapInAmount)
       = Ok totalAmount
    /\ payments
       = [ {| pay_address := orderAddress Clob.this;
              addressType := Contract;
              pay_assetBalances :=
                [ {| asset :=
                       match swapParameters !! DatumParameterKey.SwapInTokenPolicyId with
                       | Some policy =>
                           if truthy (Some policy)
                           then TokenAsset
                                  (mkAsset policy
                                     (swapParameters
                                        !! DatumParameterKey.SwapInTokenAssetName))
                           else lovelace
                       | None => lovelace
                       end;
                     quantity := totalAmount |} ];
              Types.spendUtxos := spendUtxos;
              datum := Some (getCbor built);
              isInlineDatum := true |} ].
Proof.
  unfold Clob.buildSwapOrder, Clob.buildSwapOrder_with.
  rewrite find_deposit_swapOrderFees.
  destruct (push orderDefinition _) as [built|e] eqn:Hpush; [|done].
  cbn [mbind Result_bind bind value].
  destruct (Clob.bigint_plus _ _) as [totalAmount|e] eqn:Hsum; [|done].
  cbn [mbind Result_bind bind mret Result_ret]. intros [= <-].
  eexists _, built, totalAmount. by repeat split.
Qed.

(** C6.  The second revision adds the deposit to the quantity of whatever is
    sold.  For a sale of a token (a policy id of the token sold that is not
    empty) with an integer sell amount, the one payment returned carries a
    single asset balance, the token sold with the quantity 2 000 000 plus
    the sell amount: the deposit, an amount of lovelace, has been added to
    a quantity of the token, and no lovelace is attached. *)
Theorem buildSwapOrder_token_sale_value (getCbor : EncodedDatum -> string)
    (liquidityPool : LiquidityPool) (swapParameters : DatumParameters)
    (spendUtxos : list SpendUTxO) payments policy sellAmount :
  Clob.buildSwapOrder getCbor liquidityPool swapParameters spendUtxos = Ok payments ->
  swapParameters !! DatumParameterKey.SwapInTokenPolicyId = Some policy ->
  truthy (Some policy) = true ->
  swapParameters !! DatumParameterKey.SwapInAmount = Some (VInt sellAmount) ->
  exists payment,
    payments = [payment]
    /\ pay_address payment = orderAddress Clob.this
    /\ pay_assetBalances payment
       = [ {| asset :=
                TokenAsset
                  (mkAsset policy
                     (swapParameters !! DatumParameterKey.SwapInTokenAssetName));
              quantity := VInt (2000000 + sellAmount) |} ]
    /\ Forall (fun balance => asset balance <> lovelace) (pay_assetBalances payment).
Proof.
  intros Hbuilt Hpolicy Htruthy Hsell.
  apply Clob_buildSwapOrder_Ok in Hbuilt
    as (deposit & built & totalAmount & _ & _ & _ & Hsum & ->).
  rewrite Hsell in Hsum. cbn in Hsum. injection Hsum as <-.
  rewrite Hpolicy, Htruthy.
  eexists. split; [reflexivity|]. split; [reflexivity|]. split; [reflexivity|].
  cbn. by repeat constructor.
Qed.

(** ** The statements at concrete inputs *)

(** C1 at the pool definition, where [LpFee] occurs at two leaves. *)
Lemma pull_push_round_trip_poolDefinition :
  exists datum,
    push poolDefinition Sample.poolParameters = Ok datum
    /\ pull poolDefinition datum = Ok Sample.poolParameters.
Proof.
  apply (pull_push_round_trip poolDefinition Sample.poolParameters).
  vm_compute. reflexivity.
Defined.

(** The order definition by evaluation: the datum pushed from a table that is
    valid for it. *)
Example pull_push_orderDefinition :
  push orderDefinition Sample.orderParameters
  = Ok (DConstr 0 [
          DConstr 0 [
            DConstr 0 [DBytes "1f6db6a8d6a2a0e4b0f1c5b3a0d7e9c4f2b1a3958e7d6c5b4a392817"];
            DConstr 0 [
              DConstr 0 [DBytes "9d8c7b6a5f4e3d2c1b0a99887766554433221100ffeeddccbbaa9988"]]];
          DBytes ""; DBytes ""; DInt 5000000;
          DBytes "533bb94a8850ee3ccbe483106489399112b74c905342cb1792a797a0";
          DBytes "494e4459"; DInt 9500000;
          DConstr 0 [];
          DConstr 0 [
            DBytes "7c1e3f5a9b2d4c6e8f0a1b3c5d7e9f1a2b4c6d8e0f1a3b5c7d9e1f3a5b7c9d1e";
            DInt 0]])
  /\ valid orderDefinition Sample.orderParameters = true.
Proof. split; vm_compute; reflexivity. Qed.

(** A two-leaf constructor with the parameters [A = "ab"] and [B = "cd"]: the
    datum has tag 0 and two leaves, and pulling it returns the parameters; a
    datum with another tag is a schema mismatch. *)
Example pull_push_two_leaves :
  let schema := Constructor 0 [BytesField "A"; BytesField "B"] in
  let params : DatumParameters := <["A" := VBytes "ab"]> (<["B" := VBytes "cd"]> ∅) in
  push schema params = Ok (DConstr 0 [DBytes "ab"; DBytes "cd"])
  /\ pull schema (DConstr 0 [DBytes "ab"; DBytes "cd"]) = Ok params
  /\ pull schema (DConstr 1 [DBytes "ab"; DBytes "cd"]) = Err SchemaMismatch.
Proof. repeat split; vm_compute; reflexivity. Qed.

(** An optional field, with the tag 1 for none and the tag 0 for some.  A
    table without the key pushes to the none variant and is pulled back
    without the key; a table with the key pushes to the some variant around
    the value and is pulled back with it; any other shape at the field is a
    schema mismatch. *)
Example pull_push_optional :
  let schema := Constructor 0 [BytesField "A"; OptionalField 1 0 (IntField "E")] in
  let without : DatumParameters := {[ "A" := VBytes "ab" ]} in
  let within : DatumParameters := <["E" := VInt 7]> without in
  valid schema without = true
  /\ push schema without = Ok (DConstr 0 [DBytes "ab"; DConstr 1 []])
  /\ pull schema (DConstr 0 [DBytes "ab"; DConstr 1 []]) = Ok without
  /\ valid schema within = true
  /\ push schema within = Ok (DConstr 0 [DBytes "ab"; DConstr 0 [DInt 7]])
  /\ pull schema (DConstr 0 [DBytes "ab"; DConstr 0 [DInt 7]]) = Ok within
  /\ pull schema (DConstr 0 [DBytes "ab"; DConstr 2 []]) = Err SchemaMismatch
  /\ pull schema (DConstr 0 [DBytes "ab"; DConstr 0 [DBytes "07"]]) = Err SchemaMismatch
  /\ push (Constructor 0 [BytesField "A"; IntField "E"]) without
     = Err (MissingParameter "E").
Proof. repeat split; vm_compute; reflexivity. Qed.

(** C2: the pool and the input meet the conditions, the formula gives
    19 743, and [estimatedReceive] of the second revision throws. *)
Lemma Clob_estimatedReceive_throws :
  Sample.correspondingReserves Sample.pool lovelace = (1000000, 2000000)
  /\ Amm.poolFeeBps Sample.pool = Ok 30
  /\ 10000 * (10000 - 30) * 2000000 / (10000 * (10000 - 30) + 1000000 * 10000) = 19743
  /\ Clob.estimatedReceive Sample.pool lovelace 10000 = Err (Error "SaturnSwap is a limit-order DEX. Use order book queries to determine swap amounts.").
Proof. repeat split; vm_compute; reflexivity. Qed.

(** C2 as the code has it, at reserves of 1 000 000 and 2 000 000, a fee of
    30 basis points and an input of 10 000: the estimate of the first
    revision is 19 743. *)
Lemma estimatedReceive_constant_product_sample :
  (Amm.estimatedReceive Sample.correspondingReserves Sample.pool lovelace 10000
     = Ok 19743
   /\ 19743 * (10000 * (10000 - 30) + 1000000 * 10000) <= 10000 * (10000 - 30) * 2000000)
  /\ Clob.estimatedReceive Sample.pool lovelace 10000 = Err (Error "SaturnSwap is a limit-order DEX. Use order book queries to determine swap amounts.").
Proof.
  apply (estimatedReceive_constant_product Sample.correspondingReserves
           Sample.pool lovelace 10000 30 1000000 2000000);
    [vm_compute; reflexivity | reflexivity | lia | lia | lia | lia].
Defined.

(** C3: the pool and the wanted output meet the conditions, the formula
    gives 2 514, and [estimatedGive] of the second revision throws. *)
Lemma Clob_estimatedGive_throws :
  Sample.correspondingReserves Sample.pool Sample.tokenB = (2000000, 1000000)
  /\ Amm.poolFeeBps Sample.pool = Ok 30
  /\ 5000 * 1000000 * 10000 / ((2000000 - 5000) * (10000 - 30)) + 1 = 2514
  /\ Clob.estimatedGive Sample.pool Sample.tokenB 5000 = Err (Error "SaturnSwap is a limit-order DEX. Use order book queries to determine swap amounts.").
Proof. repeat split; vm_compute; reflexivity. Qed.

(** C3 as the code has it, at the same pool and a wanted output of 5 000:
    the input of the first revision is 2 514. *)
Lemma estimatedGive_constant_product_sample :
  (Amm.estimatedGive Sample.correspondingReserves Sample.pool Sample.tokenB 5000
     = Ok 2514
   /\ 5000 * 1000000 * 10000 < 2514 * ((2000000 - 5000) * (10000 - 30)))
  /\ Clob.estimatedGive Sample.pool Sample.tokenB 5000 = Err (Error "SaturnSwap is a limit-order DEX. Use order book queries to determine swap amounts.").
Proof.
  apply (estimatedGive_constant_product Sample.correspondingReserves
           Sample.pool Sample.tokenB 5000 30 1000000 2000000);
    [vm_compute; reflexivity | reflexivity | lia | lia | lia | lia].
Defined.

(** C4: a wanted output of 3 000 000 exceeds the reserve of 2 000 000;
    [estimatedGive] of the first revision returns a number all the same, and
    that of the second revision throws its one [Error]. *)
Lemma estimatedGive_beyond_reserve_returns :
  (Sample.correspondingReserves Sample.pool Sample.tokenB).1 <= 3000000
  /\ Amm.estimatedGive Sample.correspondingReserves Sample.pool Sample.tokenB 3000000
     = Ok (-3009026)
  /\ Clob.estimatedGive Sample.pool Sample.tokenB 3000000 = Err (Error "SaturnSwap is a limit-order DEX. Use order book queries to determine swap amounts.").
Proof.
  split; [vm_compute; discriminate|].
  split; vm_compute; reflexivity.
Qed.

(** C4 as the code has it, at a wanted output of 3 000 000 against a reserve
    of 2 000 000. *)
Lemma estimatedGive_at_or_beyond_reserve_sample :
  (3000000 = 2000000 ->
   Amm.estimatedGive Sample.correspondingReserves Sample.pool Sample.tokenB 3000000
     = Err (RangeError "Division by zero"))
  /\ (2000000 < 3000000 ->
      exists amountIn,
        Amm.estimatedGive Sample.correspondingReserves Sample.pool Sample.tokenB 3000000
          = Ok amountIn
        /\ amountIn = Z.quot (3000000 * 1000000 * 10000)
                             ((2000000 - 3000000) * (10000 - 30)) + 1
        /\ amountIn <= 1)
  /\ Clob.estimatedGive Sample.pool Sample.tokenB 3000000 = Err (Error "SaturnSwap is a limit-order DEX. Use order book queries to determine swap amounts.").
Proof.
  apply (estimatedGive_at_or_beyond_reserve Sample.correspondingReserves
           Sample.pool Sample.tokenB 3000000 30 1000000 2000000);
    [vm_compute; reflexivity | reflexivity | lia | lia | lia | lia].
Defined.

(** At a wanted output equal to the reserve the division by zero throws. *)
Example estimatedGive_at_reserve_throws :
  Amm.estimatedGive Sample.correspondingReserves Sample.pool Sample.tokenB 2000000
  = Err (RangeError "Division by zero").
Proof. vm_compute. reflexivity. Qed.

(** C5 at the sample pool and [X = 5000]. *)
Lemma estimatedReceive_of_estimatedGive_sample :
  exists amountIn amountOut,
    Amm.estimatedGive Sample.correspondingReserves Sample.pool Sample.tokenB 5000
      = Ok amountIn
    /\ Amm.estimatedReceive Sample.correspondingReserves Sample.pool lovelace amountIn
       = Ok amountOut
    /\ 5000 <= amountOut.
Proof.
  apply (estimatedReceive_of_estimatedGive Sample.correspondingReserves
           Sample.pool lovelace Sample.tokenB 5000 30 1000000 2000000);
    [vm_compute; reflexivity | reflexivity | reflexivity | lia | lia | lia | lia].
Defined.

(** The amounts at that input: 2 514 to give, for which 5 000 are received. *)
Example estimatedReceive_of_estimatedGive_amounts :
  Amm.estimatedGive Sample.correspondingReserves Sample.pool Sample.tokenB 5000 = Ok 2514
  /\ Amm.estimatedReceive Sample.correspondingReserves Sample.pool lovelace 2514 = Ok 5000.
Proof. split; vm_compute; reflexivity. Qed.

(** C8: at the sample pool (reserves 1 000 000 and 2 000 000, 30 basis
    points) and an input of 10 000 the two integers that the first revision
    divides are in the ratio 994 009 / 100 997 000, about 0.98 percent.  The
    spot price is 2 and the effective price
    [swapOutNumerator / swapOutDenominator / 10000], so the relative
    deviation between the two is 1 297 / 100 997, about 1.28 percent; taken
    with the amount quoted, 19 743 for 10 000, it is 257 / 20 000.  The value
    computed is neither: it is short of the relative deviation by the fee
    share 30 / 10000.  The second revision reports [0]. *)
Lemma priceImpactPercent_is_not_the_deviation :
  Amm.priceImpactPercent Sample.correspondingReserves Sample.pool lovelace 10000
    = Ok (PrimFloat.div (Number_of_bigint (19880180000000000000000 * 100))
                        (Number_of_bigint 2019940000000000000000000))
  /\ Amm.priceImpactPercent Sample.correspondingReserves Sample.pool lovelace 10000
     = Ok 0x1.f7e89c8e9881ap-1%float
  /\ (inject_Z 19880180000000000000000 / inject_Z 2019940000000000000000000
      == 994009 # 100997000)%Q
  /\ ((inject_Z 2000000 / inject_Z 1000000
       - inject_Z (10000 * 2000000 * 9970) / inject_Z (10000 * 9970 + 1000000 * 10000)
         / inject_Z 10000)
      / (inject_Z 2000000 / inject_Z 1000000)
      == 1297 # 100997)%Q
  /\ (994009 # 100997000 < 1297 # 100997)%Q
  /\ (1297 # 100997 == (994009 # 100997000) + (30 # 10000))%Q
  /\ Amm.estimatedReceive Sample.correspondingReserves Sample.pool lovelace 10000
     = Ok 19743
  /\ ((inject_Z 2000000 / inject_Z 1000000 - inject_Z 19743 / inject_Z 10000)
      / (inject_Z 2000000 / inject_Z 1000000)
      == 257 # 20000)%Q
  /\ (994009 # 100997000 < 257 # 20000)%Q
  /\ Clob.priceImpactPercent Sample.pool lovelace 10000 = Ok 0%float.
Proof. repeat split; vm_compute; reflexivity. Qed.

(** C8 as the code has it, at the same pool and an input of 10 000. *)
Lemma priceImpactPercent_integer_terms_sample :
  let feeModifier := 10000 - 30 in
  let swapOutNumerator := 10000 * 2000000 * feeModifier in
  let swapOutDenominator := 10000 * feeModifier + 1000000 * 10000 in
  let impactNumerator :=
    2000000 * 10000 * swapOutDenominator * feeModifier
    - swapOutNumerator * 1000000 * 10000 in
  let impactDenominator := 2000000 * 10000 * swapOutDenominator * 10000 in
  Amm.estimatedReceive Sample.correspondingReserves Sample.pool lovelace 10000
    = bigint_div swapOutNumerator swapOutDenominator
  /\ Amm.priceImpactPercent Sample.correspondingReserves Sample.pool lovelace 10000
     = Ok (PrimFloat.div (Number_of_bigint (impactNumerator * 100))
                         (Number_of_bigint impactDenominator))
  /\ (0 < 10000 -> 0 < 1000000 -> 0 < 2000000 -> 0 <= 30 < 10000 ->
      let spotPrice := (inject_Z 2000000 / inject_Z 1000000)%Q in
      let effectivePrice :=
        (inject_Z swapOutNumerator / inject_Z swapOutDenominator / inject_Z 10000)%Q in
      (inject_Z impactNumerator / inject_Z impactDenominator
       == (spotPrice - effectivePrice) / spotPrice
          - inject_Z 30 / inject_Z 10000)%Q)
  /\ Clob.priceImpactPercent Sample.pool lovelace 10000 = Ok 0%float.
Proof.
  apply (priceImpactPercent_integer_terms Sample.correspondingReserves
           Sample.pool lovelace 10000 30 1000000 2000000);
    [vm_compute; reflexivity | reflexivity].
Defined.

(** The pricing stubs of the second revision. *)
Lemma Clob_pricing_stubs liquidityPool token amount :
  Clob.estimatedGive liquidityPool token amount
  = Err (Error "SaturnSwap is a limit-order DEX. Use order book queries to determine swap amounts.")
  /\ Clob.estimatedReceive liquidityPool token amount
     = Err (Error "SaturnSwap is a limit-order DEX. Use order book queries to determine swap amounts.")
  /\ Clob.priceImpactPercent liquidityPool token amount = Ok 0%float.
Proof. by repeat split. Qed.

(** C9: the empty application of constructor 0 is no control datum and that
    of constructor 1 no swap datum; each decoder returns [null] instead of
    raising a failure. *)
Lemma decoders_return_null_on_mismatch :
  Decode.decodeControlDatum Sample.Data_from Sample.BigInt_coerce "d87980"
  = Decode.mkDecoded None []
  /\ Decode.decodeSwapDatum Sample.Data_from Sample.BigInt_coerce "d87a80"
     = Decode.mkDecoded None
         [("Failed to decode SwapDatum:", Error "Invalid SwapDatum constructor index")].
Proof. split; vm_compute; reflexivity. Qed.

(** C9 as the code has it, at the empty application of constructor 1. *)
Lemma decode_constructor_mismatch_null_sample :
  (Decode.index_of (Decode.Constr 1 []) <> Some 0 ->
   Decode.decodeSwapDatum Sample.Data_from Sample.BigInt_coerce "d87a80"
   = Decode.mkDecoded None
       [("Failed to decode SwapDatum:", Error "Invalid SwapDatum constructor index")])
  /\ (Decode.index_of (Decode.Constr 1 []) <> Some 2 ->
      Decode.decodeControlDatum Sample.Data_from Sample.BigInt_coerce "d87a80"
      = Decode.mkDecoded None []).
Proof.
  apply (decode_constructor_mismatch_null Sample.Data_from Sample.BigInt_coerce
           "d87a80" (Decode.Constr 1 [])).
  vm_compute. reflexivity.
Defined.

(** C6 at a sale of 5 000 000 units of [tokenB]: the one balance attached is
    7 000 000 units of the token, and no lovelace. *)
Lemma buildSwapOrder_token_sale_value_sample :
  exists payments payment,
    Clob.buildSwapOrder Sample.getCbor Sample.pool Sample.tokenSaleParameters []
      = Ok payments
    /\ payments = [payment]
    /\ pay_address payment = orderAddress Clob.this
    /\ pay_assetBalances payment
       = [ {| asset := Sample.tokenB; quantity := VInt 7000000 |} ]
    /\ Forall (fun balance => asset balance <> lovelace) (pay_assetBalances payment).
Proof.
  destruct (Clob.buildSwapOrder Sample.getCbor Sample.pool Sample.tokenSaleParameters [])
    as [payments|failure] eqn:Hbuilt; [|vm_compute in Hbuilt; discriminate Hbuilt].
  destruct (buildSwapOrder_token_sale_value Sample.getCbor Sample.pool
              Sample.tokenSaleParameters [] payments
              (VBytes "533bb94a8850ee3ccbe483106489399112b74c905342cb1792a797a0")
              5000000 Hbuilt)
    as (payment & Hone & Haddress & Hbalances & Hnone);
    [vm_compute; reflexivity | reflexivity | vm_compute; reflexivity |].
  exists payments, payment.
  split; [reflexivity|]. split; [exact Hone|]. split; [exact Haddress|].
  split; [|exact Hnone].
  rewrite Hbalances. vm_compute. reflexivity.
Defined.

(** The same sale with the sell amount 5 000 000 of lovelace: the deposit and
    the amount add up in lovelace. *)
Example buildSwapOrder_lovelace_sale :
  exists payment,
    Clob.buildSwapOrder Sample.getCbor Sample.pool Sample.orderParameters [] = Ok [payment]
    /\ pay_assetBalances payment
       = [ {| asset := lovelace; quantity := VInt 7000000 |} ].
Proof. eexists. split; vm_compute; reflexivity. Qed.

(** C7 at three outputs, the second and third at the order address: the
    second is spent. *)
Example buildCancelSwapOrder_sample :
  buildCancelSwapOrder Clob.this
    [Sample.walletOutput; Sample.orderOutput; Sample.laterOrderOutput] "addr1_return"
  = Ok [ {| pay_address := "addr1_return";
            addressType := Base;
            pay_assetBalances := [ {| asset := lovelace; quantity := 7000000 |} ];
            spendUtxos := [ {| utxo := Sample.orderOutput;
                               redeemer := Some "d87a8100";
                               validator := Some (orderScript Clob.this);
                               signer := Some "addr1_return" |} ];
            datum := None;
            isInlineDatum := false |} ]
  /\ buildCancelSwapOrder Clob.this [Sample.walletOutput] "addr1_return"
     = Err (RejectedWith "Unable to find Saturn order UTxO for cancellation.").
Proof. split; vm_compute; reflexivity. Qed.

(** * Further properties of the code *)

(** ** Constant-product pricing (first revision) *)

(** Floor quotients compare like the fractions they round. *)
Lemma floor_div_le_cross n1 d1 n2 d2 :
  0 < d1 -> 0 < d2 -> n1 * d2 <= n2 * d1 -> n1 / d1 <= n2 / d2.
Proof.
  intros Hd1 Hd2 Hcross. apply Z.div_le_lower_bound; [done|].
  pose proof (floor_div_below n1 d1 Hd1) as Hq.
  assert (d1 * (d2 * (n1 / d1)) <= d1 * n2) as Hmul by nia.
  by apply Z.mul_le_mono_pos_l in Hmul.
Qed.

Section PricingFacts.

Variable correspondingReserves : LiquidityPool -> Token -> Z * Z.

(** X1: [estimatedReceive] does not decrease when the input grows. *)
Theorem estimatedReceive_monotone_in_amount
    liquidityPool swapInToken feeBps reserveIn reserveOut smaller larger :
  Amm.poolFeeBps liquidityPool = Ok feeBps ->
  correspondingReserves liquidityPool swapInToken = (reserveIn, reserveOut) ->
  0 < reserveIn -> 0 <= reserveOut -> 0 <= feeBps < 10000 ->
  0 <= smaller <= larger ->
  exists less more,
    Amm.estimatedReceive correspondingReserves liquidityPool swapInToken smaller = Ok less
    /\ Amm.estimatedReceive correspondingReserves liquidityPool swapInToken larger = Ok more
    /\ less <= more.
Proof.
  intros Hfee Hres HrI HrO Hbps Hamounts.
  eexists _, _. split; [|split].
  - apply estimatedReceive_floor; try done; lia.
  - apply estimatedReceive_floor; try done; lia.
  - set (m := 10000 - feeBps). assert (0 < m) as Hm by (subst m; lia).
    apply floor_div_le_cross; [nia|nia|].
    assert (0 <= (larger - smaller) * (m * reserveOut * reserveIn * 10000)) as Hgap
      by (apply Z.mul_nonneg_nonneg; [lia|nia]).
    lia.
Qed.

(** X2: [estimatedReceive] does not increase when the fee grows: of two pools with
    the same reserves the one with the higher fee pays out no more. *)
Theorem estimatedReceive_antitone_in_fee
    cheap dear swapInToken cheapBps dearBps reserveIn reserveOut amountIn :
  Amm.poolFeeBps cheap = Ok cheapBps ->
  Amm.poolFeeBps dear = Ok dearBps ->
  correspondingReserves cheap swapInToken = (reserveIn, reserveOut) ->
  correspondingReserves dear swapInToken = (reserveIn, reserveOut) ->
  0 < reserveIn -> 0 <= reserveOut -> 0 <= cheapBps <= dearBps -> dearBps < 10000 ->
  0 <= amountIn ->
  exists fromCheap fromDear,
    Amm.estimatedReceive correspondingReserves cheap swapInToken amountIn = Ok fromCheap
    /\ Amm.estimatedReceive correspondingReserves dear swapInToken amountIn = Ok fromDear
    /\ fromDear <= fromCheap.
Proof.
  intros HfeeC HfeeD HresC HresD HrI HrO Hbps Hmax Hin.
  eexists _, _. split; [|split].
  - apply estimatedReceive_floor; try done; lia.
  - apply estimatedReceive_floor; try done; lia.
  - set (mc := 10000 - cheapBps). set (md := 10000 - dearBps).
    assert (0 < md <= mc) as Hm by (subst mc md; lia).
    apply floor_div_le_cross; [nia|nia|].
    assert (0 <= (mc - md) * (amountIn * reserveOut * reserveIn * 10000)) as Hgap
      by (apply Z.mul_nonneg_nonneg; [lia|nia]).
    lia.
Qed.

(** X3: [estimatedReceive] never drains the pool: nothing comes out for no
    input, and the output stays strictly below a positive output reserve. *)
Theorem estimatedReceive_below_reserve
    liquidityPool swapInToken feeBps reserveIn reserveOut amountIn :
  Amm.poolFeeBps liquidityPool = Ok feeBps ->
  correspondingReserves liquidityPool swapInToken = (reserveIn, reserveOut) ->
  0 < reserveIn -> 0 < reserveOut -> 0 <= feeBps < 10000 -> 0 <= amountIn ->
  exists amountOut,
    Amm.estimatedReceive correspondingReserves liquidityPool swapInToken amountIn
      = Ok amountOut
    /\ 0 <= amountOut < reserveOut
    /\ (amountIn = 0 -> amountOut = 0).
Proof.
  intros Hfee Hres HrI HrO Hbps Hin.
  eexists. split; [apply estimatedReceive_floor; try done; lia|].
  set (m := 10000 - feeBps). assert (0 < m) as Hm by (subst m; lia).
  split; [split|].
  - apply Z.div_pos; nia.
  - apply Z.div_lt_upper_bound; [nia|].
    assert (0 < reserveIn * 10000 * reserveOut) by nia. nia.
  - intros ->. by rewrite !Z.mul_0_l.
Qed.

(** X4: A swap at the estimated output keeps the constant product: the product
    of the reserves after the trade is at least the product before it. *)
Theorem estimatedReceive_keeps_constant_product
    liquidityPool swapInToken feeBps reserveIn reserveOut amountIn :
  Amm.poolFeeBps liquidityPool = Ok feeBps ->
  correspondingReserves liquidityPool swapInToken = (reserveIn, reserveOut) ->
  0 < reserveIn -> 0 <= reserveOut -> 0 <= feeBps < 10000 -> 0 <= amountIn ->
  exists amountOut,
    Amm.estimatedReceive correspondingReserves liquidityPool swapInToken amountIn
      = Ok amountOut
    /\ reserveIn * reserveOut <= (reserveIn + amountIn) * (reserveOut - amountOut).
Proof.
  intros Hfee Hres HrI HrO Hbps Hin.
  eexists. split; [apply estimatedReceive_floor; try done; lia|].
  set (m := 10000 - feeBps). assert (0 < m <= 10000) as Hm by (subst m; lia).
  set (amountOut := amountIn * m * reserveOut / (amountIn * m + reserveIn * 10000)).
  assert (amountOut <= amountIn * reserveOut / (amountIn + reserveIn)) as Hno_fee.
  { apply floor_div_le_cross; [nia|nia|].
    assert (0 <= (10000 - m) * (amountIn * reserveOut * reserveIn)) as Hgap
      by (apply Z.mul_nonneg_nonneg; [lia|nia]).
    lia. }
  pose proof (floor_div_below (amountIn * reserveOut) (amountIn + reserveIn)) as Hfloor.
  assert (0 <= amountOut) by (apply Z.div_pos; nia).
  nia.
Qed.

(** X5: [estimatedGive] asks for at least one unit, exactly one for an output of
    zero, and does not ask for less when more is wanted. *)
Theorem estimatedGive_positive_and_monotone
    liquidityPool swapOutToken feeBps reserveIn reserveOut smaller larger :
  Amm.poolFeeBps liquidityPool = Ok feeBps ->
  correspondingReserves liquidityPool swapOutToken = (reserveOut, reserveIn) ->
  0 <= reserveIn -> 0 <= feeBps < 10000 ->
  0 <= smaller <= larger -> larger < reserveOut ->
  exists forSmaller forLarger,
    Amm.estimatedGive correspondingReserves liquidityPool swapOutToken smaller
      = Ok forSmaller
    /\ Amm.estimatedGive correspondingReserves liquidityPool swapOutToken larger
       = Ok forLarger
    /\ 1 <= forSmaller <= forLarger
    /\ (smaller = 0 -> forSmaller = 1).
Proof.
  intros Hfee Hres HrI Hbps Hwanted Hreserve.
  eexists _, _. split; [|split].
  - apply estimatedGive_floor_succ; try done; lia.
  - apply estimatedGive_floor_succ; try done; lia.
  - set (m := 10000 - feeBps). assert (0 < m) as Hm by (subst m; lia).
    split; [split|].
    + assert (0 <= smaller * reserveIn * 10000 / ((reserveOut - smaller) * m))
        by (apply Z.div_pos; nia).
      lia.
    + apply Z.add_le_mono_r. apply floor_div_le_cross; [nia|nia|].
      assert (0 <= (larger - smaller) * (reserveIn * reserveOut * 10000 * m)) as Hgap
        by (repeat apply Z.mul_nonneg_nonneg; lia).
      lia.
    + intros ->. by rewrite !Z.mul_0_l.
Qed.

(** X6: The input [estimatedGive] asks for is within one unit of the least
    sufficient one: it buys at least the wanted output, and one unit less
    buys at most the wanted output. *)
Theorem estimatedGive_tight
    liquidityPool swapInToken swapOutToken X feeBps reserveIn reserveOut :
  Amm.poolFeeBps liquidityPool = Ok feeBps ->
  correspondingReserves liquidityPool swapOutToken = (reserveOut, reserveIn) ->
  correspondingReserves liquidityPool swapInToken = (reserveIn, reserveOut) ->
  0 < reserveIn -> 0 < reserveOut -> 0 <= feeBps < 10000 ->
  0 <= X < reserveOut ->
  exists amountIn atAmount belowAmount,
    Amm.estimatedGive correspondingReserves liquidityPool swapOutToken X = Ok amountIn
    /\ Amm.estimatedReceive correspondingReserves liquidityPool swapInToken amountIn
       = Ok atAmount
    /\ Amm.estimatedReceive correspondingReserves liquidityPool swapInToken (amountIn - 1)
       = Ok belowAmount
    /\ belowAmount <= X <= atAmount.
Proof.
  intros Hfee HresO HresI HrI HrO Hbps HX.
  set (m := 10000 - feeBps). assert (0 < m) as Hm by (subst m; lia).
  set (q := X * reserveIn * 10000 / ((reserveOut - X) * m)).
  assert (0 <= q) as Hq by (apply Z.div_pos; nia).
  assert (q * ((reserveOut - X) * m) <= X * reserveIn * 10000) as Hbelow
    by (apply floor_div_below; nia).
  assert (X * reserveIn * 10000 < (q + 1) * ((reserveOut - X) * m)) as Habove
    by (apply succ_floor_div_above; nia).
  exists (q + 1). eexists _, _. split; [|split; [|split; [|split]]].
  - apply estimatedGive_floor_succ; try done; lia.
  - apply estimatedReceive_floor; try done; lia.
  - apply estimatedReceive_floor; try done; lia.
  - replace (q + 1 - 1) with q by lia. fold m.
    apply Z.div_le_upper_bound; [nia|].
    assert (q * m * reserveOut <= X * (q * m + reserveIn * 10000)) by nia.
    nia.
  - fold m. apply Z.div_le_lower_bound; nia.
Qed.

Lemma priceImpactPercent_value
    liquidityPool swapInToken amountIn feeBps reserveIn reserveOut :
  Amm.poolFeeBps liquidityPool = Ok feeBps ->
  correspondingReserves liquidityPool swapInToken = (reserveIn, reserveOut) ->
  Amm.priceImpactPercent correspondingReserves liquidityPool swapInToken amountIn
  = Ok (PrimFloat.div
          (Number_of_bigint
             ((reserveOut * amountIn * (amountIn * (10000 - feeBps) + reserveIn * 10000)
                 * (10000 - feeBps)
               - amountIn * (10000 - feeBps) * reserveOut * reserveIn * 10000) * 100))
          (Number_of_bigint
             (reserveOut * amountIn * (amountIn * (10000 - feeBps) + reserveIn * 10000)
                * 10000))).
Proof.
  intros Hfee Hres. unfold Amm.priceImpactPercent.
  rewrite (poolFeeModifier_of_bps _ _ Hfee). cbn. by rewrite Hres.
Qed.

(** X7: The two integers [priceImpactPercent] divides: the numerator is the
    output reserve times the square of the input after the fee, so for a
    positive input and positive reserves the exact impact is positive and
    stays below the share the fee leaves, [(10000 - feeBps) / 10000]. *)
Theorem priceImpactPercent_exact_range
    liquidityPool swapInToken amountIn feeBps reserveIn reserveOut :
  Amm.poolFeeBps liquidityPool = Ok feeBps ->
  correspondingReserves liquidityPool swapInToken = (reserveIn, reserveOut) ->
  0 < reserveIn -> 0 < reserveOut -> 0 <= feeBps < 10000 -> 0 < amountIn ->
  exists numerator denominator,
    Amm.priceImpactPercent correspondingReserves liquidityPool swapInToken amountIn
      = Ok (PrimFloat.div (Number_of_bigint (numerator * 100))
                          (Number_of_bigint denominator))
    /\ numerator = reserveOut * (amountIn * (10000 - feeBps)) ^ 2
    /\ 0 < numerator
    /\ numerator * 10000 < denominator * (10000 - feeBps).
Proof.
  intros Hfee Hres HrI HrO Hbps Hin.
  eexists _, _. split; [by apply priceImpactPercent_value|].
  set (m := 10000 - feeBps). assert (0 < m) as Hm by (subst m; lia).
  split; [ring|]. split.
  - assert (0 < reserveOut * (amountIn * m) ^ 2) as Hpos
      by (apply Z.mul_pos_pos; [lia|]; apply Z.pow_pos_nonneg; nia).
    replace (reserveOut * amountIn * (amountIn * m + reserveIn * 10000) * m
             - amountIn * m * reserveOut * reserveIn * 10000)
      with (reserveOut * (amountIn * m) ^ 2) by ring.
    exact Hpos.
  - assert (0 < reserveOut * amountIn * m * reserveIn * 10000 * 10000) as Hgap
      by (repeat apply Z.mul_pos_pos; lia).
    lia.
Qed.

(** X8: For an input of zero, or against an empty output reserve,
    [priceImpactPercent] divides zero by zero and returns NaN. *)
Theorem priceImpactPercent_of_nothing_is_nan
    liquidityPool swapInToken amountIn feeBps reserveIn reserveOut :
  Amm.poolFeeBps liquidityPool = Ok feeBps ->
  correspondingReserves liquidityPool swapInToken = (reserveIn, reserveOut) ->
  amountIn = 0 \/ reserveOut = 0 ->
  Amm.priceImpactPercent correspondingReserves liquidityPool swapInToken amountIn
  = Ok nan.
Proof.
  intros Hfee Hres Hzero.
  rewrite (priceImpactPercent_value _ _ _ _ _ _ Hfee Hres).
  set (m := 10000 - feeBps).
  replace ((reserveOut * amountIn * (amountIn * m + reserveIn * 10000) * m
            - amountIn * m * reserveOut * reserveIn * 10000) * 100) with 0
    by (destruct Hzero as [-> | ->]; ring).
  replace (reserveOut * amountIn * (amountIn * m + reserveIn * 10000) * 10000) with 0
    by (destruct Hzero as [-> | ->]; ring).
  reflexivity.
Qed.

(** X9: A pool whose fee is not a finite number makes the three pricing methods
    throw a [RangeError] before they look at the reserves. *)
Theorem pricing_throws_on_fee_not_finite
    liquidityPool token amount :
  poolFeePercent liquidityPool = nan
  \/ poolFeePercent liquidityPool = infinity
  \/ poolFeePercent liquidityPool = neg_infinity ->
  exists msg,
    Amm.estimatedGive correspondingReserves liquidityPool token amount
      = Err (RangeError msg)
    /\ Amm.estimatedReceive correspondingReserves liquidityPool token amount
       = Err (RangeError msg)
    /\ Amm.priceImpactPercent correspondingReserves liquidityPool token amount
       = Err (RangeError msg).
Proof.
  intros Hfee.
  assert (Amm.poolFeeModifier liquidityPool
          = Err (RangeError "The number cannot be converted to a BigInt because it is not an integer"))
    as Hmodifier.
  { unfold Amm.poolFeeModifier, Amm.poolFeeBps.
    destruct Hfee as [-> | [-> | ->]]; vm_compute; reflexivity. }
  eexists. unfold Amm.estimatedGive, Amm.estimatedReceive, Amm.priceImpactPercent.
  rewrite Hmodifier. by repeat split.
Qed.

End PricingFacts.

(** ** The datum decoders *)

Section DecoderFacts.

Variable Data_from : string -> Result Decode.Data.
Variable BigInt_coerce : Decode.Data -> Result Z.

(** X10: A swap datum in its proper form decodes to its fields, and nothing is
    logged: constructor 0 with nine fields, integers for the two amounts, and
    for the expiry either constructor 0 around an integer (an expiry) or any
    other constructor (none). *)
Theorem decodeSwapDatum_well_formed datumCbor owner policySell nameSell amountSell
    policyBuy nameBuy amountBuy expiryField expiry reference :
  Data_from datumCbor
    = Ok (Decode.Constr 0 [owner; policySell; nameSell; Decode.DataInt amountSell;
                           policyBuy; nameBuy; Decode.DataInt amountBuy;
                           expiryField; reference]) ->
  (exists timestamp rest,
     expiryField = Decode.Constr 0 (Decode.DataInt timestamp :: rest)
     /\ expiry = Some timestamp)
  \/ (Decode.index_of expiryField <> Some 0 /\ expiry = None) ->
  Decode.decodeSwapDatum Data_from BigInt_coerce datumCbor
  = Decode.mkDecoded
      (Some {| Decode.owner := owner;
               Decode.sellToken := Decode.mkTokenAmount policySell nameSell amountSell;
               Decode.buyToken := Decode.mkTokenAmount policyBuy nameBuy amountBuy;
               Decode.expiry := expiry;
               Decode.outputReference := reference |})
      [].
Proof.
  intros Hfrom Hexpiry.
  unfold Decode.decodeSwapDatum, Decode.decodeSwapDatum_try. rewrite Hfrom. cbn.
  destruct Hexpiry as [(timestamp & rest & -> & ->) | [Hindex ->]]; [done|].
  destruct expiryField as [z|hex|items|entries|index fields]; try done.
  destruct index as [|p|p]; try done.
Qed.

(** X11: An expiry written as constructor 0 without a field makes a swap datum
    undecodable, whatever its other fields hold: the decoder returns [null]. *)
Theorem decodeSwapDatum_empty_expiry datumCbor field0 field1 field2 field3
    field4 field5 field6 field8 :
  Data_from datumCbor
    = Ok (Decode.Constr 0 [field0; field1; field2; field3; field4; field5; field6;
                           Decode.Constr 0 []; field8]) ->
  Decode.returned (Decode.decodeSwapDatum Data_from BigInt_coerce datumCbor) = None
  /\ exists failure,
       Decode.logged (Decode.decodeSwapDatum Data_from BigInt_coerce datumCbor)
       = [("Failed to decode SwapDatum:", failure)].
Proof.
  intros Hfrom.
  unfold Decode.decodeSwapDatum, Decode.decodeSwapDatum_try. rewrite Hfrom. cbn.
  destruct (Decode.BigInt_of_data BigInt_coerce field3) as [sell|e3]; cbn;
    [|by eauto].
  destruct (Decode.BigInt_of_data BigInt_coerce field6) as [buy|e6]; cbn;
    by eauto.
Qed.

(** X12: A control datum in its proper form decodes to its fields, and nothing is
    logged; the pool counts as active exactly when the last field is an
    application of constructor 1, so a last field that is an integer always
    reads as inactive. *)
Theorem decodeControlDatum_well_formed datumCbor policyOne nameOne minOne maxOne
    precisionOne policyTwo nameTwo minTwo maxTwo precisionTwo flag :
  Data_from datumCbor
    = Ok (Decode.Constr 2 [policyOne; nameOne; Decode.DataInt minOne;
                           Decode.DataInt maxOne; Decode.DataInt precisionOne;
                           policyTwo; nameTwo; Decode.DataInt minTwo;
                           Decode.DataInt maxTwo; Decode.DataInt precisionTwo; flag]) ->
  exists active,
    Decode.decodeControlDatum Data_from BigInt_coerce datumCbor
    = Decode.mkDecoded
        (Some {| Decode.tokenOne :=
                   Decode.mkTokenControl policyOne nameOne minOne maxOne precisionOne;
                 Decode.tokenTwo :=
                   Decode.mkTokenControl policyTwo nameTwo minTwo maxTwo precisionTwo;
                 Decode.isActive := active |})
        []
    /\ (active = true <-> exists fields, flag = Decode.Constr 1 fields)
    /\ (forall z, flag = Decode.DataInt z -> active = false).
Proof.
  intros Hfrom. eexists. split; [|split].
  - unfold Decode.decodeControlDatum, Decode.decodeControlDatum_try.
    rewrite Hfrom. reflexivity.
  - rewrite bool_decide_eq_true. split.
    + destruct flag as [z|hex|items|entries|index fields]; try done.
      intros [= ->]. by eexists.
    + by intros [fields ->].
  - intros z ->. reflexivity.
Qed.

(** X13: A datum with the expected constructor index and another number of fields
    is [null] for both decoders, which log the [Error] they threw. *)
Theorem decode_wrong_field_count datumCbor index fields :
  Data_from datumCbor = Ok (Decode.Constr index fields) ->
  (index = 0 -> length fields <> 9%nat ->
   Decode.decodeSwapDatum Data_from BigInt_coerce datumCbor
   = Decode.mkDecoded None
       [("Failed to decode SwapDatum:", Error "Invalid SwapDatum fields")])
  /\ (index = 2 -> length fields <> 11%nat ->
      Decode.decodeControlDatum Data_from BigInt_coerce datumCbor
      = Decode.mkDecoded None
          [("Failed to decode ControlDatum:", Error "Invalid ControlDatum fields")]).
Proof.
  intros Hfrom. split; intros -> Hlength.
  - unfold Decode.decodeSwapDatum, Decode.decodeSwapDatum_try. rewrite Hfrom. cbn.
    do 10 (destruct fields as [|? fields]; [done|]); done.
  - unfold Decode.decodeControlDatum, Decode.decodeControlDatum_try. rewrite Hfrom. cbn.
    do 12 (destruct fields as [|? fields]; [done|]); done.
Qed.

Lemma decodeSwapDatum_some_isSwapDatum datumCbor :
  is_Some (Decode.returned (Decode.decodeSwapDatum Data_from BigInt_coerce datumCbor)) ->
  Decode.isSwapDatum Data_from datumCbor = true.
Proof.
  unfold Decode.isSwapDatum, Decode.decodeSwapDatum, Decode.decodeSwapDatum_try.
  destruct (Data_from datumCbor) as [datum|e]; cbn; [|by intros []].
  destruct datum as [z|hex|items|entries|index fields]; cbn; [by intros []..|].
  destruct (decide (index = 0)) as [->|Hne].
  - cbn. do 9 (destruct fields as [|? fields]; [by intros []|]).
    destruct fields; [done|by intros []].
  - rewrite bool_decide_eq_false_2 by congruence. by intros [].
Qed.

Lemma decodeControlDatum_some_isControlDatum datumCbor :
  is_Some (Decode.returned (Decode.decodeControlDatum Data_from BigInt_coerce datumCbor)) ->
  Decode.isControlDatum Data_from datumCbor = true.
Proof.
  unfold Decode.isControlDatum, Decode.decodeControlDatum, Decode.decodeControlDatum_try.
  destruct (Data_from datumCbor) as [datum|e]; cbn; [|by intros []].
  destruct datum as [z|hex|items|entries|index fields]; cbn; [by intros []..|].
  destruct (decide (index = 2)) as [->|Hne].
  - cbn. do 11 (destruct fields as [|? fields]; [by intros []|]).
    destruct fields; [done|by intros []].
  - rewrite bool_decide_eq_false_2 by congruence. by intros [].
Qed.

(** X14: The two shape tests exclude each other, and each decoder returns a record
    only for a datum that passes its test. *)
Theorem decoders_agree_with_shape_tests datumCbor :
  (Decode.isSwapDatum Data_from datumCbor = true ->
   Decode.isControlDatum Data_from datumCbor = false)
  /\ (is_Some (Decode.returned (Decode.decodeSwapDatum Data_from BigInt_coerce datumCbor)) ->
      Decode.isSwapDatum Data_from datumCbor = true)
  /\ (is_Some (Decode.returned (Decode.decodeControlDatum Data_from BigInt_coerce datumCbor)) ->
      Decode.isControlDatum Data_from datumCbor = true).
Proof.
  split; [|split].
  - unfold Decode.isSwapDatum, Decode.isControlDatum.
    destruct (Data_from datumCbor) as [datum|e]; [|done].
    destruct datum as [z|hex|items|entries|index fields]; cbn; [done..|].
    intros [Hindex _]%andb_prop. apply bool_decide_eq_true in Hindex as [= ->]. done.
  - apply decodeSwapDatum_some_isSwapDatum.
  - apply decodeControlDatum_some_isControlDatum.
Qed.

End DecoderFacts.

(** ** Order placement (second revision) *)

(** [push] reads the table at the leaf keys of the schema only. *)
Lemma existsb_holds_agree (params params' : DatumParameters) ks :
  (forall key, key ∈ ks -> params !! key = params' !! key) ->
  existsb (holds params) ks = existsb (holds params') ks.
Proof.
  induction ks as [|k ks IH]; intros Hagree; [done|].
  cbn. unfold holds at 1 3. rewrite (Hagree k) by (by left).
  rewrite IH; [done|]. intros key Hkey. apply Hagree. by right.
Qed.

Lemma push_only_reads_keys schema (params params' : DatumParameters) :
  (forall key, key ∈ keys schema -> params !! key = params' !! key) ->
  push schema params = push schema params'.
Proof.
  induction schema as [tag fields IH|key|key|none some inner IH]
    using SchemaNode_rect_fields; intros Hagree.
  - cbn. f_equal.
    unfold keys in Hagree. cbn [leaves] in Hagree. clear tag.
    induction IH as [|field fields Hfield _ IHfields]; [done|].
    cbn [flat_map] in Hagree. rewrite !mapR_cons.
    rewrite Hfield, IHfields; [done| |].
    + intros key Hkey. apply Hagree. rewrite fmap_app. apply elem_of_app. by right.
    + intros key Hkey. apply Hagree. rewrite fmap_app. apply elem_of_app. by left.
  - cbn. rewrite (Hagree key); [done|]. unfold keys. cbn. set_solver.
  - cbn. rewrite (Hagree key); [done|]. unfold keys. cbn. set_solver.
  - cbn [push]. rewrite (existsb_holds_agree params params' (keys inner) Hagree).
    by rewrite (IH Hagree).
Qed.



Lemma order_keys_apart key :
  key ∈ keys orderDefinition ->
  key <> DatumParameterKey.Expiration
  /\ key <> DatumParameterKey.DepositFee
  /\ key <> DatumParameterKey.Unknown.
Proof.
  intros Hkey. repeat split; intros ->; revert Hkey;
    apply (bool_decide_eq_false_1 _); by vm_compute.
Qed.

(** The order datum is pushed from the parameters of the caller alone: what
    [buildSwapOrder] adds or removes lies outside the order definition. *)
Lemma push_order_swapDatumParameters deposit (swapParameters : DatumParameters) :
  push orderDefinition (Clob.swapDatumParameters deposit swapParameters)
  = push orderDefinition swapParameters.
Proof.
  apply push_only_reads_keys. intros key Hkey.
  destruct (order_keys_apart key Hkey) as (Hexp & Hfee & Hunknown).
  unfold Clob.swapDatumParameters.
  destruct (truthy _);
    rewrite ?lookup_delete_ne, !lookup_insert_ne by done; done.
Qed.

Section OrderFacts.

Variable getCbor : EncodedDatum -> string.

(** X15: The expiry a caller passes never reaches the order: with or without an
    [Expiration] parameter, and whatever its value, [buildSwapOrder] returns
    the same payment with the same datum. *)
Theorem buildSwapOrder_ignores_expiration
    liquidityPool (swapParameters : DatumParameters) spendUtxos expiration :
  Clob.buildSwapOrder getCbor liquidityPool
    (<[DatumParameterKey.Expiration := expiration]> swapParameters) spendUtxos
  = Clob.buildSwapOrder getCbor liquidityPool
      (delete DatumParameterKey.Expiration swapParameters) spendUtxos.
Proof.
  unfold Clob.buildSwapOrder, Clob.buildSwapOrder_with.
  rewrite find_deposit_swapOrderFees.
  rewrite !push_order_swapDatumParameters.
  rewrite (push_only_reads_keys orderDefinition
             (<[DatumParameterKey.Expiration := expiration]> swapParameters)
             (delete DatumParameterKey.Expiration swapParameters)).
  - rewrite !lookup_insert_ne, !lookup_delete_ne by done. done.
  - intros key Hkey. destruct (order_keys_apart key Hkey) as (Hexp & _).
    by rewrite lookup_insert_ne, lookup_delete_ne.
Qed.


(** X17: [buildSwapOrder] attaches exactly one asset balance.  Its asset is
    lovelace for a sale of lovelace and the token sold otherwise; its
    quantity is what [deposit.value + swapInAmount] evaluates to.  For an
    integer sell amount that is 2 000 000 plus the amount, also for a sale
    of a token, so that the deposit is added to a quantity of the token and
    no lovelace is attached; for a sell amount passed as a string it is the
    string made of the digits 2000000 and that string. *)
Theorem buildSwapOrder_single_balance
    liquidityPool (swapParameters : DatumParameters) spendUtxos payments :
  Clob.buildSwapOrder getCbor liquidityPool swapParameters spendUtxos = Ok payments ->
  exists payment given sold,
    payments = [payment]
    /\ swapParameters !! DatumParameterKey.SwapInAmount = Some given
    /\ pay_assetBalances payment
       = [ {| asset := sold;
              quantity :=
                match given with
                | VInt sellAmount => VInt (2000000 + sellAmount)
                | VBytes text => VBytes ("2000000" +:+ text)
                end |} ]
    /\ (truthy (swapParameters !! DatumParameterKey.SwapInTokenPolicyId) = false ->
        sold = lovelace)
    /\ (forall policy,
          swapParameters !! DatumParameterKey.SwapInTokenPolicyId = Some policy ->
          truthy (Some policy) = true ->
          sold
          = TokenAsset
              (mkAsset policy
                 (swapParameters !! DatumParameterKey.SwapInTokenAssetName))).
Proof.
  intros Hbuilt.
  apply Clob_buildSwapOrder_Ok in Hbuilt
    as (deposit & built & totalAmount & _ & _ & _ & Hsum & ->).
  unfold Clob.bigint_plus in Hsum.
  destruct (swapParameters !! DatumParameterKey.SwapInAmount) as [given|]; [|done].
  eexists _, given, _. split; [reflexivity|]. split; [reflexivity|]. split; [|split].
  - cbn [pay_assetBalances]. do 2 f_equal.
    destruct given as [text|sellAmount]; by injection Hsum as <-.
  - intros Hfalsy.
    destruct (swapParameters !! DatumParameterKey.SwapInTokenPolicyId) as [policy|];
      [|done].
    by rewrite Hfalsy.
  - intros policy [= ->] Htruthy. by rewrite Htruthy.
Qed.

End OrderFacts.

(** ** An order datum read back by the decoder *)

(** The datum pushed from the order definition: constructor 0 with nine
    fields, the eighth of them constructor 0 without a field. *)
Lemma push_orderDefinition_shape (params : DatumParameters) built :
  push orderDefinition params = Ok built ->
  exists f0 f1 f2 f3 f4 f5 f6 f8,
    Wire.to_data built
    = Decode.Constr 0 [f0; f1; f2; f3; f4; f5; f6; Decode.Constr 0 []; f8].
Proof.
  intros Hpush. cbn in Hpush.
  repeat (match type of Hpush with
          | context [?m !! ?k] => destruct (m !! k)
          end; cbn in Hpush; try done).
  injection Hpush as <-. cbn. by eexists _, _, _, _, _, _, _, _.
Qed.

(** X18: No order written by [buildSwapOrder] of the second revision can be read
    back by [decodeSwapDatum]: the order definition writes the expiry as
    constructor 0 without a field, which the decoder takes for an expiry and
    fails on.  The wire form is assumed to carry the datum built. *)
Theorem decodeSwapDatum_rejects_built_order
    (getCbor : EncodedDatum -> string)
    (Data_from : string -> Result Decode.Data)
    (BigInt_coerce : Decode.Data -> Result Z)
    liquidityPool (swapParameters : DatumParameters) spendUtxos payments :
  (forall built,
     push orderDefinition swapParameters = Ok built ->
     Data_from (getCbor built) = Ok (Wire.to_data built)) ->
  Clob.buildSwapOrder getCbor liquidityPool swapParameters spendUtxos = Ok payments ->
  exists payment datumCbor,
    payments = [payment]
    /\ datum payment = Some datumCbor
    /\ Decode.returned (Decode.decodeSwapDatum Data_from BigInt_coerce datumCbor) = None.
Proof.
  intros Hwire. unfold Clob.buildSwapOrder, Clob.buildSwapOrder_with.
  rewrite find_deposit_swapOrderFees, push_order_swapDatumParameters.
  destruct (push orderDefinition swapParameters) as [built|e] eqn:Hpush; [|done].
  cbn. destruct (Clob.bigint_plus _ _) as [total|e]; [|done].
  cbn. intros [= <-]. eexists _, _. split; [done|]. split; [done|].
  specialize (Hwire built eq_refl).
  destruct (push_orderDefinition_shape _ _ Hpush)
    as (f0 & f1 & f2 & f3 & f4 & f5 & f6 & f8 & Hshape).
  rewrite Hshape in Hwire.
  unfold Decode.decodeSwapDatum, Decode.decodeSwapDatum_try. rewrite Hwire. cbn.
  destruct (Decode.BigInt_of_data BigInt_coerce f3) as [sell|e3]; cbn; [|done].
  by destruct (Decode.BigInt_of_data BigInt_coerce f6) as [buy|e6].
Qed.

(** ** A pool datum read by the decoder *)

(** A datum that [pull] accepts against the pool definition is constructor 2
    with eleven leaves of the kinds the definition declares. *)
Lemma pull_into_BytesField key datum (found found' : DatumParameters) :
  pull_into (BytesField key) datum found = Ok found' -> exists b, datum = DBytes b.
Proof. destruct datum; [done| |done]. by eexists. Qed.

Lemma pull_into_IntField key datum (found found' : DatumParameters) :
  pull_into (IntField key) datum found = Ok found' -> exists z, datum = DInt z.
Proof. destruct datum; [done..|]. by eexists. Qed.

Lemma foldR2_cons_Ok {A B S : Type} (f : A -> B -> S -> Result S) a la b lb acc r :
  foldR2 f (a :: la) (b :: lb) acc = Ok r ->
  exists acc', f a b acc = Ok acc' /\ foldR2 f la lb acc' = Ok r.
Proof.
  rewrite foldR2_cons. destruct (f a b acc) as [acc'|]; [|done].
  intros Hrest. by exists acc'.
Qed.

Lemma pull_poolDefinition_shape datum (params : DatumParameters) :
  pull poolDefinition datum = Ok params ->
  exists b0 b1 z2 z3 z4 b5 b6 z7 z8 z9 z10,
    datum = DConstr 2 [DBytes b0; DBytes b1; DInt z2; DInt z3; DInt z4;
                       DBytes b5; DBytes b6; DInt z7; DInt z8; DInt z9; DInt z10].
Proof.
  unfold pull. generalize (∅ : DatumParameters). intros found Hpull.
  destruct datum as [tag children|b|z]; [|done..].
  cbn [pull_into poolDefinition] in Hpull.
  destruct (N.eqb_spec 2 tag) as [<-|]; [|done].
  do 11 (destruct children as [|? children]; [done|]).
  destruct children; [|done].
  cbn [negb orb length Nat.eqb] in Hpull.
  repeat match type of Hpull with
         | foldR2 _ (_ :: _) (_ :: _) _ = Ok _ =>
             let Hleaf := fresh "Hleaf" in
             apply foldR2_cons_Ok in Hpull as (? & Hleaf & Hpull);
             first [ apply pull_into_BytesField in Hleaf as [? ->]
                   | apply pull_into_IntField in Hleaf as [? ->] ]
         end.
  by eexists _, _, _, _, _, _, _, _, _, _, _.
Qed.

(** X19: The pool definition and the control-datum decoder disagree on the last
    field: every datum that matches the pool definition carries an integer
    there, and the decoder, which looks for constructor 1, reports such a
    pool as inactive. *)
Theorem decodeControlDatum_of_pool_datum_inactive
    (Data_from : string -> Result Decode.Data)
    (BigInt_coerce : Decode.Data -> Result Z)
    datumCbor datum (params : DatumParameters) :
  pull poolDefinition datum = Ok params ->
  Data_from datumCbor = Ok (Wire.to_data datum) ->
  exists control,
    Decode.decodeControlDatum Data_from BigInt_coerce datumCbor
      = Decode.mkDecoded (Some control) []
    /\ Decode.isActive control = false.
Proof.
  intros Hpull Hfrom.
  destruct (pull_poolDefinition_shape _ _ Hpull)
    as (b0 & b1 & z2 & z3 & z4 & b5 & b6 & z7 & z8 & z9 & z10 & ->).
  unfold Decode.decodeControlDatum, Decode.decodeControlDatum_try.
  rewrite Hfrom. eexists. split; reflexivity.
Qed.

(** ** Pools from the outputs at the pool address *)

Lemma omap_length_le {A B : Type} (f : A -> option B) (l : list A) :
  (length (omap f l) <= length l)%nat.
Proof.
  induction l as [|a l IH]; cbn; [done|]. destruct (f a); cbn; lia.
Qed.

(** X20: [liquidityPools] asks the provider once, for the outputs at the pool
    address.  If the provider rejects, so does the call; otherwise every
    pool listed is the pool of one of those outputs, and there are no more
    pools than outputs. *)
Theorem liquidityPools_from_pool_address {P : Type}
    (provider_utxos : string -> Result (list UTxO))
    (liquidityPoolFromUtxo : UTxO -> option P) (this : Instance) :
  (forall e, provider_utxos (poolAddress this) = Err e ->
             Pools.liquidityPools provider_utxos liquidityPoolFromUtxo this = Err e)
  /\ (forall utxos, provider_utxos (poolAddress this) = Ok utxos ->
        exists pools,
          Pools.liquidityPools provider_utxos liquidityPoolFromUtxo this = Ok pools
          /\ (length pools <= length utxos)%nat
          /\ (forall pool, pool ∈ pools <->
                exists utxo, utxo ∈ utxos /\ liquidityPoolFromUtxo utxo = Some pool)).
Proof.
  unfold Pools.liquidityPools, Pools.liquidityPoolAddresses, Pools.poolsOf. cbn.
  split.
  - by intros e ->.
  - intros utxos ->. cbn. eexists. split; [done|]. split.
    + apply omap_length_le.
    + intros pool. apply list_elem_of_omap.
Qed.

Section AmmPoolFacts.

Variable datumValue : string -> Result EncodedDatum.
Variable Asset_identifier : Asset -> string.
Variable BigInt_of_string : string -> Result Z.

(** X21: A pool found at an output by the first revision takes its two assets and
    reserves from the first two relevant balances of the output, in their
    order: neither is an LP token or the pool NFT.  The output holds a pool
    NFT, whose name names the LP token, and the pool is priced at 30 basis
    points. *)
Theorem AmmPools_found_pool (this : Instance) (utxo : UTxO) found :
  AmmPools.liquidityPoolFromUtxo datumValue Asset_identifier BigInt_of_string this utxo
    = Some found ->
  exists first second rest poolNft,
    List.filter AmmPools.isRelevant (assetBalances utxo) = first :: second :: rest
    /\ AmmPools.isRelevant first = true /\ AmmPools.isRelevant second = true
    /\ assetA (AmmPools.liquidityPool found) = asset first
    /\ reserveA (AmmPools.liquidityPool found) = quantity first
    /\ assetB (AmmPools.liquidityPool found) = asset second
    /\ reserveB (AmmPools.liquidityPool found) = quantity second
    /\ pool_address (AmmPools.liquidityPool found) = address utxo
    /\ Amm.poolFeeBps (AmmPools.liquidityPool found) = Ok 30
    /\ (exists held, held ∈ assetBalances utxo
                     /\ asset held = TokenAsset poolNft
                     /\ policyId poolNft = VBytes AmmPools.poolNftPolicyId)
    /\ AmmPools.lpToken found
       = mkAsset (VBytes AmmPools.lpTokenPolicyId) (nameHex poolNft).
Proof.
  unfold AmmPools.liquidityPoolFromUtxo.
  destruct (datumHash utxo) as [hash|]; [|done].
  destruct (String.eqb hash ""); [done|].
  destruct (List.find AmmPools.isPoolNft (assetBalances utxo))
    as [[[|poolNft] nftQuantity]|] eqn:Hfind; [done| |done].
  destruct (List.filter AmmPools.isRelevant (assetBalances utxo))
    as [|first [|second rest]] eqn:Hfilter; [done..|].
  destruct (AmmPools.liquidityPoolFromUtxo_try _ _ _ _ _ _ _ _ _)
    as [built|e] eqn:Htry; [|done].
  intros [= <-].
  unfold AmmPools.liquidityPoolFromUtxo_try in Htry.
  destruct (datumValue hash) as [datum|e]; [|done].
  cbn [mbind Result_bind bind] in Htry.
  destruct (pull poolDefinition_v1 datum) as [parameters|e]; [|done].
  cbn [mbind Result_bind bind] in Htry.
  destruct (AmmPools.totalLpTokens_of _ _) as [total|e]; [|done].
  cbn [mbind Result_bind bind mret Result_ret] in Htry. injection Htry as <-.
  assert (first ∈ List.filter AmmPools.isRelevant (assetBalances utxo)) as Hfirst
    by (rewrite Hfilter; set_solver).
  assert (second ∈ List.filter AmmPools.isRelevant (assetBalances utxo)) as Hsecond
    by (rewrite Hfilter; set_solver).
  apply list_elem_of_In, filter_In in Hfirst as [_ Hfirst].
  apply list_elem_of_In, filter_In in Hsecond as [_ Hsecond].
  apply find_some in Hfind as [Hheld Hnft].
  exists first, second, rest, poolNft. repeat split; try done.
  exists {| asset := TokenAsset poolNft; quantity := nftQuantity |}.
  split; [by apply list_elem_of_In|]. split; [done|].
  unfold AmmPools.isPoolNft in Hnft. cbn in Hnft.
  by apply bool_decide_eq_true in Hnft.
Qed.

End AmmPoolFacts.

Lemma token_of_lovelace control :
  ClobPools.token_of control = ClobPools.ControlLovelace
  <-> Decode.control_policyId control = Decode.DataBytes "".
Proof.
  unfold ClobPools.token_of.
  destruct (Decode.control_policyId control) as [z|hex|items|entries|index fields];
    try done.
  by destruct hex.
Qed.

Section ClobPoolFacts.

Variable Data_from : string -> Result Decode.Data.
Variable BigInt_coerce : Decode.Data -> Result Z.
Variable datumValue : string -> Result EncodedDatum.

(** X22: The second revision fetches the datum of an output and never looks at
    it: with every fetched datum replaced by another one the result is the
    same.  The control datum is decoded from the datum hash. *)
Theorem ClobPools_ignores_fetched_datum (this : Instance) (utxo : UTxO) other :
  ClobPools.liquidityPoolFromUtxo Data_from BigInt_coerce
    (fun hash => datum ← datumValue hash; mret other) this utxo
  = ClobPools.liquidityPoolFromUtxo Data_from BigInt_coerce datumValue this utxo.
Proof.
  unfold ClobPools.liquidityPoolFromUtxo.
  destruct (datumHash utxo) as [hash|]; [|done].
  destruct (String.eqb hash ""); [done|].
  by destruct (datumValue hash).
Qed.

(** X23: A pool found at an output by the second revision has a datum hash that
    itself passes for a control datum; its reserves are empty, its
    identifier is the transaction hash, [#] and the output index, and its
    tokens are those of the control datum, lovelace for the empty policy
    id. *)
Theorem ClobPools_found_pool (this : Instance) (utxo : UTxO) pool :
  Decode.returned
    (ClobPools.liquidityPoolFromUtxo Data_from BigInt_coerce datumValue this utxo)
    = Some pool ->
  exists hash control,
    datumHash utxo = Some hash
    /\ Decode.isControlDatum Data_from hash = true
    /\ Decode.returned (Decode.decodeControlDatum Data_from BigInt_coerce hash)
       = Some control
    /\ ClobPools.pool_reserveA pool = 0 /\ ClobPools.pool_reserveB pool = 0
    /\ ClobPools.pool_identifier pool = txHash utxo +:+ "#" +:+ pretty (outputIndex utxo)
    /\ ClobPools.utxo_address pool = address utxo
    /\ (ClobPools.tokenA pool = ClobPools.ControlLovelace
        <-> Decode.control_policyId (Decode.tokenOne control) = Decode.DataBytes "")
    /\ (ClobPools.tokenB pool = ClobPools.ControlLovelace
        <-> Decode.control_policyId (Decode.tokenTwo control) = Decode.DataBytes "").
Proof.
  unfold ClobPools.liquidityPoolFromUtxo.
  destruct (datumHash utxo) as [hash|]; [|done].
  destruct (String.eqb hash ""); [done|].
  destruct (datumValue hash) as [datum|e]; [|done]. cbn.
  destruct (Decode.returned (Decode.decodeControlDatum Data_from BigInt_coerce hash))
    as [control|] eqn:Hcontrol; [|done].
  cbn. intros [= <-]. exists hash, control.
  split; [done|]. split.
  { apply (decodeControlDatum_some_isControlDatum _ BigInt_coerce).
    rewrite Hcontrol. by eexists. }
  split; [done|]. do 4 (split; [done|]).
  split; apply token_of_lovelace.
Qed.

End ClobPoolFacts.

(** ** The further properties at concrete inputs *)

Lemma estimatedReceive_monotone_in_amount_sample :
  exists less more,
    Amm.estimatedReceive Sample.correspondingReserves Sample.pool lovelace 10000 = Ok less
    /\ Amm.estimatedReceive Sample.correspondingReserves Sample.pool lovelace 20000
       = Ok more
    /\ less <= more.
Proof.
  apply (estimatedReceive_monotone_in_amount Sample.correspondingReserves
           Sample.pool lovelace 30 1000000 2000000 10000 20000);
    [vm_compute; reflexivity | reflexivity | lia ..].
Defined.

Lemma estimatedReceive_antitone_in_fee_sample :
  exists fromCheap fromDear,
    Amm.estimatedReceive Sample.correspondingReserves Sample.pool lovelace 10000
      = Ok fromCheap
    /\ Amm.estimatedReceive Sample.correspondingReserves Inputs.dearPool lovelace 10000
       = Ok fromDear
    /\ fromDear <= fromCheap.
Proof.
  apply (estimatedReceive_antitone_in_fee Sample.correspondingReserves
           Sample.pool Inputs.dearPool lovelace 30 100 1000000 2000000 10000);
    [vm_compute; reflexivity | vm_compute; reflexivity | reflexivity | reflexivity
    | lia ..].
Defined.

Lemma estimatedReceive_below_reserve_sample :
  exists amountOut,
    Amm.estimatedReceive Sample.correspondingReserves Sample.pool lovelace 50000000
      = Ok amountOut
    /\ 0 <= amountOut < 2000000
    /\ (50000000 = 0 -> amountOut = 0).
Proof.
  apply (estimatedReceive_below_reserve Sample.correspondingReserves
           Sample.pool lovelace 30 1000000 2000000 50000000);
    [vm_compute; reflexivity | reflexivity | lia ..].
Defined.

Lemma estimatedReceive_keeps_constant_product_sample :
  exists amountOut,
    Amm.estimatedReceive Sample.correspondingReserves Sample.pool lovelace 10000
      = Ok amountOut
    /\ 1000000 * 2000000 <= (1000000 + 10000) * (2000000 - amountOut).
Proof.
  apply (estimatedReceive_keeps_constant_product Sample.correspondingReserves
           Sample.pool lovelace 30 1000000 2000000 10000);
    [vm_compute; reflexivity | reflexivity | lia ..].
Defined.

Lemma estimatedGive_positive_and_monotone_sample :
  exists forSmaller forLarger,
    Amm.estimatedGive Sample.correspondingReserves Sample.pool Sample.tokenB 0
      = Ok forSmaller
    /\ Amm.estimatedGive Sample.correspondingReserves Sample.pool Sample.tokenB 5000
       = Ok forLarger
    /\ 1 <= forSmaller <= forLarger
    /\ (0 = 0 -> forSmaller = 1).
Proof.
  apply (estimatedGive_positive_and_monotone Sample.correspondingReserves
           Sample.pool Sample.tokenB 30 1000000 2000000 0 5000);
    [vm_compute; reflexivity | reflexivity | lia ..].
Defined.

Lemma estimatedGive_tight_sample :
  exists amountIn atAmount belowAmount,
    Amm.estimatedGive Sample.correspondingReserves Sample.pool Sample.tokenB 5000
      = Ok amountIn
    /\ Amm.estimatedReceive Sample.correspondingReserves Sample.pool lovelace amountIn
       = Ok atAmount
    /\ Amm.estimatedReceive Sample.correspondingReserves Sample.pool lovelace
         (amountIn - 1)
       = Ok belowAmount
    /\ belowAmount <= 5000 <= atAmount.
Proof.
  apply (estimatedGive_tight Sample.correspondingReserves
           Sample.pool lovelace Sample.tokenB 5000 30 1000000 2000000);
    [vm_compute; reflexivity | reflexivity | reflexivity | lia ..].
Defined.

Lemma priceImpactPercent_exact_range_sample :
  exists numerator denominator,
    Amm.priceImpactPercent Sample.correspondingReserves Sample.pool lovelace 10000
      = Ok (PrimFloat.div (Number_of_bigint (numerator * 100))
                          (Number_of_bigint denominator))
    /\ numerator = 2000000 * (10000 * (10000 - 30)) ^ 2
    /\ 0 < numerator
    /\ numerator * 10000 < denominator * (10000 - 30).
Proof.
  apply (priceImpactPercent_exact_range Sample.correspondingReserves
           Sample.pool lovelace 10000 30 1000000 2000000);
    [vm_compute; reflexivity | reflexivity | lia ..].
Defined.

Lemma priceImpactPercent_of_nothing_is_nan_sample :
  Amm.priceImpactPercent Sample.correspondingReserves Sample.pool lovelace 0 = Ok nan.
Proof.
  apply (priceImpactPercent_of_nothing_is_nan Sample.correspondingReserves
           Sample.pool lovelace 0 30 1000000 2000000);
    [vm_compute; reflexivity | reflexivity | left; reflexivity].
Defined.

Lemma pricing_throws_on_fee_not_finite_sample :
  exists msg,
    Amm.estimatedGive Sample.correspondingReserves Inputs.brokenPool lovelace 10000
      = Err (RangeError msg)
    /\ Amm.estimatedReceive Sample.correspondingReserves Inputs.brokenPool lovelace 10000
       = Err (RangeError msg)
    /\ Amm.priceImpactPercent Sample.correspondingReserves Inputs.brokenPool lovelace
         10000
       = Err (RangeError msg).
Proof.
  apply (pricing_throws_on_fee_not_finite Sample.correspondingReserves
           Inputs.brokenPool lovelace 10000).
  left. reflexivity.
Defined.

Lemma decodeSwapDatum_well_formed_sample :
  Decode.decodeSwapDatum
    (Inputs.reads (Inputs.swapDatum (Decode.Constr 0 [Decode.DataInt 1767225600000])))
    Sample.BigInt_coerce "d8799f"
  = Decode.mkDecoded
      (Some {| Decode.owner := Decode.Constr 0 [];
               Decode.sellToken :=
                 Decode.mkTokenAmount (Decode.DataBytes "") (Decode.DataBytes "") 5000000;
               Decode.buyToken :=
                 Decode.mkTokenAmount
                   (Decode.DataBytes
                      "533bb94a8850ee3ccbe483106489399112b74c905342cb1792a797a0")
                   (Decode.DataBytes "494e4459") 9500000;
               Decode.expiry := Some 1767225600000;
               Decode.outputReference :=
                 Decode.Constr 0 [Decode.DataBytes "7c1e"; Decode.DataInt 0] |})
      [].
Proof.
  apply (decodeSwapDatum_well_formed
           (Inputs.reads
              (Inputs.swapDatum (Decode.Constr 0 [Decode.DataInt 1767225600000])))
           Sample.BigInt_coerce "d8799f" (Decode.Constr 0 [])
           (Decode.DataBytes "") (Decode.DataBytes "") 5000000
           (Decode.DataBytes "533bb94a8850ee3ccbe483106489399112b74c905342cb1792a797a0")
           (Decode.DataBytes "494e4459") 9500000
           (Decode.Constr 0 [Decode.DataInt 1767225600000]) (Some 1767225600000)
           (Decode.Constr 0 [Decode.DataBytes "7c1e"; Decode.DataInt 0])).
  - reflexivity.
  - left. exists 1767225600000, []. split; reflexivity.
Defined.

Lemma decodeSwapDatum_empty_expiry_sample :
  Decode.returned
    (Decode.decodeSwapDatum (Inputs.reads (Inputs.swapDatum (Decode.Constr 0 [])))
       Sample.BigInt_coerce "d8799f")
  = None
  /\ exists failure,
       Decode.logged
         (Decode.decodeSwapDatum (Inputs.reads (Inputs.swapDatum (Decode.Constr 0 [])))
            Sample.BigInt_coerce "d8799f")
       = [("Failed to decode SwapDatum:", failure)].
Proof.
  apply (decodeSwapDatum_empty_expiry
           (Inputs.reads (Inputs.swapDatum (Decode.Constr 0 [])))
           Sample.BigInt_coerce "d8799f" (Decode.Constr 0 [])
           (Decode.DataBytes "") (Decode.DataBytes "") (Decode.DataInt 5000000)
           (Decode.DataBytes "533bb94a8850ee3ccbe483106489399112b74c905342cb1792a797a0")
           (Decode.DataBytes "494e4459") (Decode.DataInt 9500000)
           (Decode.Constr 0 [Decode.DataBytes "7c1e"; Decode.DataInt 0])).
  reflexivity.
Defined.

Lemma decodeControlDatum_well_formed_sample :
  exists active,
    Decode.decodeControlDatum (Inputs.reads (Inputs.controlDatum (Decode.Constr 1 [])))
      Sample.BigInt_coerce "d87b9f"
    = Decode.mkDecoded
        (Some {| Decode.tokenOne :=
                   Decode.mkTokenControl (Decode.DataBytes "") (Decode.DataBytes "")
                     1 250000 6;
                 Decode.tokenTwo :=
                   Decode.mkTokenControl
                     (Decode.DataBytes
                        "533bb94a8850ee3ccbe483106489399112b74c905342cb1792a797a0")
                     (Decode.DataBytes "494e4459") 4 9000000 6;
                 Decode.isActive := active |})
        []
    /\ (active = true <-> exists fields, Decode.Constr 1 [] = Decode.Constr 1 fields)
    /\ (forall z, Decode.Constr 1 [] = Decode.DataInt z -> active = false).
Proof.
  apply (decodeControlDatum_well_formed
           (Inputs.reads (Inputs.controlDatum (Decode.Constr 1 [])))
           Sample.BigInt_coerce "d87b9f").
  reflexivity.
Defined.

Lemma decode_wrong_field_count_sample :
  (0 = 0 -> length [Decode.DataBytes ""; Decode.DataInt 1] <> 9%nat ->
   Decode.decodeSwapDatum (Inputs.reads Inputs.shortDatum) Sample.BigInt_coerce "d8799f"
   = Decode.mkDecoded None
       [("Failed to decode SwapDatum:", Error "Invalid SwapDatum fields")])
  /\ (0 = 2 -> length [Decode.DataBytes ""; Decode.DataInt 1] <> 11%nat ->
      Decode.decodeControlDatum (Inputs.reads Inputs.shortDatum) Sample.BigInt_coerce
        "d8799f"
      = Decode.mkDecoded None
          [("Failed to decode ControlDatum:", Error "Invalid ControlDatum fields")]).
Proof.
  apply (decode_wrong_field_count (Inputs.reads Inputs.shortDatum) Sample.BigInt_coerce
           "d8799f" 0 [Decode.DataBytes ""; Decode.DataInt 1]).
  reflexivity.
Defined.

Lemma buildSwapOrder_single_balance_sample :
  exists payments payment,
    Clob.buildSwapOrder Sample.getCbor Sample.pool Sample.orderParameters [] = Ok payments
    /\ payments = [payment]
    /\ pay_assetBalances payment
       = [ {| asset := lovelace; quantity := VInt 7000000 |} ].
Proof.
  destruct (Clob.buildSwapOrder Sample.getCbor Sample.pool Sample.orderParameters [])
    as [payments|failure] eqn:Hbuilt; [|vm_compute in Hbuilt; discriminate Hbuilt].
  destruct (buildSwapOrder_single_balance Sample.getCbor Sample.pool
              Sample.orderParameters [] payments Hbuilt)
    as (payment & given & sold & Hone & Hgiven & Hbalances & Hlovelace & _).
  exists payments, payment.
  split; [reflexivity|]. split; [exact Hone|].
  vm_compute in Hgiven. injection Hgiven as <-.
  rewrite Hbalances, Hlovelace; [reflexivity|]. vm_compute. reflexivity.
Defined.

(** A sell amount passed as the string 5: the quantity attached is the
    string 20000005. *)
Example buildSwapOrder_string_amount :
  exists payment,
    Clob.buildSwapOrder Sample.getCbor Sample.pool
      (<[DatumParameterKey.SwapInAmount := VBytes "5"]> Sample.orderParameters) []
    = Ok [payment]
    /\ pay_assetBalances payment
       = [ {| asset := lovelace; quantity := VBytes "20000005" |} ].
Proof. eexists. split; vm_compute; reflexivity. Qed.

Lemma decodeSwapDatum_rejects_built_order_sample :
  exists payments payment datumCbor,
    Clob.buildSwapOrder Sample.getCbor Sample.pool Sample.orderParameters [] = Ok payments
    /\ payments = [payment]
    /\ datum payment = Some datumCbor
    /\ Decode.returned
         (Decode.decodeSwapDatum Inputs.readsOrder Sample.BigInt_coerce datumCbor)
       = None.
Proof.
  destruct (Clob.buildSwapOrder Sample.getCbor Sample.pool Sample.orderParameters [])
    as [payments|failure] eqn:Hbuilt; [|vm_compute in Hbuilt; discriminate Hbuilt].
  destruct (decodeSwapDatum_rejects_built_order Sample.getCbor Inputs.readsOrder
              Sample.BigInt_coerce Sample.pool Sample.orderParameters [] payments)
    as (payment & datumCbor & Hone & Hdatum & Hnone).
  - intros built Hpush. unfold Inputs.readsOrder. rewrite Hpush.
    by rewrite String.eqb_refl.
  - exact Hbuilt.
  - exists payments, payment, datumCbor.
    split; [reflexivity|]. split; [exact Hone|]. split; [exact Hdatum|exact Hnone].
Defined.

Lemma decodeControlDatum_of_pool_datum_inactive_sample :
  exists control,
    Decode.decodeControlDatum (Inputs.reads (Wire.to_data Inputs.poolDatum))
      Sample.BigInt_coerce "d87b9f"
    = Decode.mkDecoded (Some control) []
    /\ Decode.isActive control = false.
Proof.
  destruct (push_then_pull_into Sample.poolParameters poolDefinition)
    as (datum & Hpush & Hpull); [vm_compute; reflexivity|].
  vm_compute in Hpush. injection Hpush as <-.
  apply (decodeControlDatum_of_pool_datum_inactive
           (Inputs.reads (Wire.to_data Inputs.poolDatum)) Sample.BigInt_coerce
           "d87b9f" Inputs.poolDatum
           (recorded Sample.poolParameters ∅ (leaves poolDefinition)) (Hpull ∅)).
  reflexivity.
Defined.

Lemma AmmPools_found_pool_sample :
  exists found first second rest poolNft,
    AmmPools.liquidityPoolFromUtxo Inputs.datumValue Inputs.Asset_identifier
      Inputs.BigInt_of_string Amm.this Inputs.poolOutput = Some found
    /\ List.filter AmmPools.isRelevant (assetBalances Inputs.poolOutput)
       = first :: second :: rest
    /\ reserveA (AmmPools.liquidityPool found) = quantity first
    /\ reserveB (AmmPools.liquidityPool found) = quantity second
    /\ Amm.poolFeeBps (AmmPools.liquidityPool found) = Ok 30
    /\ AmmPools.lpToken found
       = mkAsset (VBytes AmmPools.lpTokenPolicyId) (nameHex poolNft).
Proof.
  destruct (AmmPools.liquidityPoolFromUtxo Inputs.datumValue Inputs.Asset_identifier
              Inputs.BigInt_of_string Amm.this Inputs.poolOutput)
    as [found|] eqn:Hfound; [|vm_compute in Hfound; discriminate Hfound].
  destruct (AmmPools_found_pool Inputs.datumValue Inputs.Asset_identifier
              Inputs.BigInt_of_string Amm.this Inputs.poolOutput found Hfound)
    as (first & second & rest & poolNft & Hrelevant & _ & _ & _ & HreserveA & _
        & HreserveB & _ & Hfee & _ & HlpToken).
  exists found, first, second, rest, poolNft.
  split; [reflexivity|]. split; [exact Hrelevant|]. split; [exact HreserveA|].
  split; [exact HreserveB|]. split; [exact Hfee|exact HlpToken].
Defined.

Lemma ClobPools_found_pool_sample :
  exists pool hash control,
    Decode.returned
      (ClobPools.liquidityPoolFromUtxo
         (Inputs.reads (Inputs.controlDatum (Decode.Constr 1 []))) Sample.BigInt_coerce
         Inputs.anyDatum Clob.this Inputs.controlOutput)
    = Some pool
    /\ datumHash Inputs.controlOutput = Some hash
    /\ Decode.returned
         (Decode.decodeControlDatum
            (Inputs.reads (Inputs.controlDatum (Decode.Constr 1 [])))
            Sample.BigInt_coerce hash)
       = Some control
    /\ ClobPools.pool_reserveA pool = 0 /\ ClobPools.pool_reserveB pool = 0
    /\ ClobPools.pool_identifier pool = "c4#3".
Proof.
  destruct (Decode.returned
              (ClobPools.liquidityPoolFromUtxo
                 (Inputs.reads (Inputs.controlDatum (Decode.Constr 1 [])))
                 Sample.BigInt_coerce Inputs.anyDatum Clob.this Inputs.controlOutput))
    as [pool|] eqn:Hpool; [|vm_compute in Hpool; discriminate Hpool].
  destruct (ClobPools_found_pool
              (Inputs.reads (Inputs.controlDatum (Decode.Constr 1 [])))
              Sample.BigInt_coerce Inputs.anyDatum Clob.this Inputs.controlOutput
              pool Hpool)
    as (hash & control & Hhash & _ & Hcontrol & HreserveA & HreserveB & Hid & _).
  exists pool, hash, control.
  split; [reflexivity|]. split; [exact Hhash|]. split; [exact Hcontrol|].
  split; [exact HreserveA|]. split; [exact HreserveB|].
  rewrite Hid. reflexivity.
Defined.
